(** * Market Basket Insights dashboard (app.py)

    The script loads a table of association rules, thresholds it on three
    sliders, and renders metric cards, a recommendation list, a network graph
    and the raw table.  This file embeds the script as Rocq functions and
    proves the properties its specification states about it.

    Layout: the embedding first (numbers, table, loader, filter, sorting,
    lookup, graph, page script), then the lemmas, grouped by stage. *)

From Stdlib Require Import Floats ZArith Lia Sorted Permutation.
From stdpp Require Import gmap strings list sorting.

#[local] Set Warnings "-inexact-float,-clear-no-such-hyp".

(* ================================================================== *)
(** * Numbers *)
(* ================================================================== *)

(** The numeric columns and the slider values are Python floats, that is
    IEEE 754 binary64 numbers: Rocq's primitive [float].  [ge x y] is the
    Python comparison [x >= y]; it is [false] as soon as one side is NaN. *)
Definition ge (x y : float) : bool := PrimFloat.leb y x.

(** Position of a number that is not NaN on the extended real line: sign
    class first, then exponent, then mantissa.  Only used in proofs about
    [ge]. *)
Definition sf_key (f : spec_float) : Z * Z * Z :=
  match f with
  | S754_nan => (0, 0, 0)
  | S754_zero _ => (0, 0, 0)
  | S754_infinity true => (-2, 0, 0)
  | S754_infinity false => (2, 0, 0)
  | S754_finite true m e => (-1, - e, - Z.pos m)
  | S754_finite false m e => (1, e, Z.pos m)
  end%Z.

Definition lex_le (a b : Z * Z * Z) : Prop :=
  let '(a1, a2, a3) := a in
  let '(b1, b2, b3) := b in
  (a1 < b1 \/ (a1 = b1 /\ (a2 < b2 \/ (a2 = b2 /\ a3 <= b3))))%Z.

(* ================================================================== *)
(** * Exceptions *)
(* ================================================================== *)

(** An instance of a subclass of Python's [Exception]: the name of its
    class, the names of the classes that class derives from, and its text
    ([str(e)]). *)
Record exn := Exception {
  exn_class : string;
  exn_bases : list string;
  exn_msg : string
}.

(** [isinstance(e, cls)], which is what [except cls] tests: [cls] is the
    class of [e] or one of the classes it derives from. *)
Definition isinstance (e : exn) (cls : string) : bool :=
  bool_decide (cls ∈ exn_class e :: exn_bases e).

(** What a library call gives back: a value, or a raised exception. *)
Inductive result (A : Type) : Type :=
| Return (a : A)
| Raise (e : exn).
Arguments Return {A} a.
Arguments Raise {A} e.

(* ================================================================== *)
(** * The rule table *)
(* ================================================================== *)

(** One row of the table, with the five columns the script reads. *)
Record Rule := mkRule {
  antecedents : string;
  consequents : string;
  support : float;
  confidence : float;
  lift : float
}.

(** A DataFrame is the sequence of its rows, in row order.  The row labels
    (the index) are never read by the script ([for _, row in ...]). *)
Definition DataFrame : Type := list Rule.

(** [df.empty] *)
Definition empty (df : DataFrame) : bool :=
  match df with
  | [] => true
  | _ :: _ => false
  end.

(** [df.head(n)] *)
Definition df_head (n : nat) (df : DataFrame) : DataFrame := firstn n df.

(* ================================================================== *)
(** * Loading (lines 32-40) *)
(* ================================================================== *)

(** What unpickling a file can give, and so what [rules_df] can be:
    Python's [None]; a table with the five columns; or any other object (a
    table without a column that lines 54-56 read, such as the empty
    [pd.DataFrame()], or no table at all), of which the model keeps the
    exception [e] that evaluating lines 53-57 raises on it.  Tables that
    have the three numeric columns but lack 'antecedents' or 'consequents'
    are not among these values. *)
Inductive pyvalue : Type :=
| PyNone
| Table (df : DataFrame)
| Other (e : exn).

(** The state of the file "rules.pkl" when it is read: not there; there but
    not unpicklable, the unpickler raising [e]; or holding the pickle of a
    value. *)
Inductive artifact : Type :=
| Missing
| Malformed (e : exn)
| Stored (v : pyvalue).

(** [pd.read_pickle("rules.pkl")]: the stored value; [FileNotFoundError] when
    there is no such file; for a file that does not unpickle, whatever
    exception [e] the unpickler raises on it. *)
Definition read_pickle (a : artifact) : result pyvalue :=
  match a with
  | Missing =>
      Raise (Exception "FileNotFoundError" ["OSError"]
               "[Errno 2] No such file or directory: 'rules.pkl'")
  | Malformed e => Raise e
  | Stored v => Return v
  end.

(** The body of [load_rules], lines 34-38. *)
Definition load_rules_body (a : artifact) : result pyvalue :=
  match read_pickle a with
  | Return df => Return df
  | Raise e =>
      if isinstance e "FileNotFoundError" then Return PyNone
      else Raise e
  end.

(** [load_rules()] under [@st.cache_data], line 32.  [cache] is the entry
    the decorator holds for the function when it is called: [None] when
    there is none, [Some v] when an earlier call returned [v].  With an
    entry the body does not run and the file is not read. *)
Definition load_rules (cache : option pyvalue) (a : artifact) : result pyvalue :=
  match cache with
  | Some v => Return v
  | None => load_rules_body a
  end.

(** The entry after the call: a returned value is kept, also [None]; an
    exception leaves no entry. *)
Definition cache_after (cache : option pyvalue) (a : artifact) : option pyvalue :=
  match cache with
  | Some v => Some v
  | None =>
      match load_rules_body a with
      | Return v => Some v
      | Raise _ => None
      end
  end.

(* ================================================================== *)
(** * Threshold filter (lines 53-59) *)
(* ================================================================== *)

(** The boolean mask of lines 54-56, row by row. *)
Definition mask (min_sup min_conf min_lift : float) (r : Rule) : bool :=
  ge (support r) min_sup && ge (confidence r) min_conf && ge (lift r) min_lift.

(** [rules_df[mask]], lines 53-57. *)
Definition threshold_filter (rules_df : DataFrame)
    (min_sup min_conf min_lift : float) : DataFrame :=
  List.filter (mask min_sup min_conf min_lift) rules_df.

(** [filtered_df] as lines 46-59 assign it: the empty [pd.DataFrame()] when
    [rules_df] is [None], else [rules_df] thresholded, which raises when
    [rules_df] is not a table with the columns. *)
Definition filtered_df (rules_df : pyvalue)
    (min_sup min_conf min_lift : float) : result DataFrame :=
  match rules_df with
  | PyNone => Return []
  | Table df => Return (threshold_filter df min_sup min_conf min_lift)
  | Other e => Raise e
  end.

(* ================================================================== *)
(** * Sorting *)
(* ================================================================== *)

(** [df.sort_values(by=<column>, ascending=False)] is a pandas call.  The
    script passes no [kind], so pandas sorts with its default
    [kind='quicksort'], which its documentation lists as not stable (only
    'mergesort' and 'stable' are).  The call is therefore modelled as an
    operation of which only the documented result is known. *)
Class SortValues := sort_values : (Rule -> float) -> DataFrame -> DataFrame.

(** [comes_before x y]: key [x] may stand before key [y] in a descending
    column with the missing values last ([na_position='last']). *)
Definition comes_before (x y : float) : bool := is_nan y || ge x y.

Definition descending (col : Rule -> float) (df : DataFrame) : Prop :=
  StronglySorted (fun a b => comes_before (col a) (col b) = true) df.

(** The documented result of [sort_values]: the same rows, reordered so that
    the column is descending. *)
Definition sorts_descending (SV : SortValues) : Prop :=
  forall (col : Rule -> float) (df : DataFrame),
    sort_values col df ≡ₚ df /\ descending col (sort_values col df).

(** Two sorts that give the documented result, both by insertion.
    [insert_where goes_first x l] puts [x] in front of the first row [y] of
    [l] with [goes_first x y].  The first sort puts a row in front of the rows
    it ties with, which followed it in the table: rows of equal key keep
    their original order, the stable order.  The second puts it behind
    them: two rows of equal key come out in the opposite of their order in
    the table. *)
Fixpoint insert_where (goes_first : Rule -> Rule -> bool) (x : Rule)
    (l : DataFrame) : DataFrame :=
  match l with
  | [] => [x]
  | y :: t =>
      if goes_first x y then x :: y :: t
      else y :: insert_where goes_first x t
  end.

Definition sort_stable (col : Rule -> float) (df : DataFrame) : DataFrame :=
  foldr (insert_where (fun x y => comes_before (col x) (col y))) [] df.

Definition sort_ties_reversed (col : Rule -> float) (df : DataFrame) : DataFrame :=
  foldr (insert_where (fun x y => negb (comes_before (col y) (col x)))) [] df.

Definition stable_kind : SortValues := sort_stable.
Definition ties_reversed_kind : SortValues := sort_ties_reversed.

(** Rows [a] and [b] tie on a column. *)
Definition same_key (col : Rule -> float) (a b : Rule) : bool :=
  comes_before (col a) (col b) && comes_before (col b) (col a).

(* ================================================================== *)
(** * Recommendation lookup (lines 87-96) *)
(* ================================================================== *)

(** Line 89. *)
Definition specific_rules `{SortValues} (filtered_df : DataFrame)
    (selected_item : string) : DataFrame :=
  sort_values confidence
    (List.filter (fun r => String.eqb (antecedents r) selected_item) filtered_df).

(** The rows line 95 iterates over. *)
Definition recommendations `{SortValues} (filtered_df : DataFrame)
    (selected_item : string) : DataFrame :=
  df_head 5 (specific_rules filtered_df selected_item).

(* ================================================================== *)
(** * Graph builder (lines 112-116) *)
(* ================================================================== *)

(** A networkx [DiGraph] with one edge attribute, [weight]: the set of nodes
    and the edges as a map from (source, target) to the weight. *)
Record DiGraph := mkDiGraph {
  nodes : gset string;
  edges : gmap (string * string) float
}.

(** [nx.DiGraph()] *)
Definition empty_graph : DiGraph := {| nodes := ∅; edges := ∅ |}.

(** [G.add_edge(u, v, weight=w)]: both end points become nodes; the edge is
    created, or when it exists its [weight] is set to [w]. *)
Definition add_edge (G : DiGraph) (u v : string) (weight : float) : DiGraph :=
  {| nodes := {[u; v]} ∪ nodes G;
     edges := <[(u, v) := weight]> (edges G) |}.

(** Line 112. *)
Definition graph_data `{SortValues} (filtered_df : DataFrame) : DataFrame :=
  df_head 20 (sort_values lift filtered_df).

(** Line 116, for one row. *)
Definition add_row (G : DiGraph) (row : Rule) : DiGraph :=
  add_edge G (antecedents row) (consequents row) (lift row).

(** Lines 114-116: the loop over the rows, first row first. *)
Definition build_graph (rows : DataFrame) : DiGraph :=
  fold_left add_row rows empty_graph.

(** The source and target of the edge a row stands for. *)
Definition endpoints (r : Rule) : string * string :=
  (antecedents r, consequents r).

Definition same_edge (k : string * string) (r : Rule) : bool :=
  bool_decide (endpoints r = k).

(* ================================================================== *)
(** * Metric cards (lines 75-78) *)
(* ================================================================== *)

(** The aggregations of a numeric column.  [None] is the undefined result of
    aggregating a column with no value in it (pandas reports it as NaN).
    pandas leaves missing values out of an aggregate; the columns of a
    filtered view have none.  The sum is taken left to right where numpy
    adds pairwise, so an average can differ from the one shown in its last
    bit; of 0.0 and -0.0 [max] keeps the one that comes first, which need
    not be the one numpy returns.  The lemmas below use whether an aggregate
    is defined and that the largest value is a largest one, not these
    bits. *)
Definition series_sum (s : list float) : float := fold_left PrimFloat.add s 0%float.

Definition float_of_nat (n : nat) : float :=
  PrimFloat.of_uint63 (Uint63.of_Z (Z.of_nat n)).

Definition mean (s : list float) : option float :=
  match s with
  | [] => None
  | _ :: _ => Some (series_sum s / float_of_nat (length s))%float
  end.

Definition larger (x y : float) : float := if PrimFloat.ltb x y then y else x.

Definition max (s : list float) : option float :=
  match s with
  | [] => None
  | x :: t => Some (fold_left larger t x)
  end.

(** What a metric card shows: a count, or an aggregate. *)
Inductive metric_value : Type :=
| Count (n : nat)
| Aggregate (x : option float).

(* ================================================================== *)
(** * The page script *)
(* ================================================================== *)

(** The calls the script makes on the page, in the order it makes them.  The
    numbers a call formats into its text are kept as numbers; the style
    sheet of lines 14-29 is abridged and the pictographs in front of the
    texts are left out. *)
Inductive event : Type :=
| st_set_page_config
| st_markdown (body : string)
| st_sidebar_title (body : string)
| st_sidebar_write (body : string)
| st_sidebar_slider (label : string)
| st_title (body : string)
| st_error (body : string)
| st_warning (body : string)
| st_metric (label : string) (value : metric_value)
| st_divider
| st_subheader (body : string)
| st_selectbox (label : string) (options : list string)
| st_success (body : string)
| st_write (consequent : string) (conf lft : float)
| st_info (body : string)
| st_tabs (labels : list string)
| st_caption (body : string)
| st_pyplot (G : DiGraph)
| st_dataframe (df : DataFrame).

(** How a run of the script ends early: [st.stop()], or an exception that
    nothing caught. *)
Inductive signal : Type :=
| Stopped
| Uncaught (e : exn).

(** A piece of script: the calls it made, and its value unless it ended the
    run. *)
Definition Script (A : Type) : Type := list event * (signal + A).

Definition ret {A} (a : A) : Script A := ([], inr a).

Definition bind {A B} (m : Script A) (k : A -> Script B) : Script B :=
  match m with
  | (t, inl s) => (t, inl s)
  | (t, inr a) => let '(t', r) := k a in (t ++ t', r)
  end.

Notation "x <- m ;; k" := (bind m (fun x => k))
  (at level 100, m at next level, right associativity).
Notation "m ;;; k" := (bind m (fun _ => k))
  (at level 100, right associativity).

Definition call (ev : event) : Script unit := ([ev], inr tt).

(** [st.stop()] *)
Definition st_stop {A} : Script A := ([], inl Stopped).

(** A library call inside the script: its exception, if any, is raised. *)
Definition lib {A} (r : result A) : Script A :=
  match r with
  | Return a => ret a
  | Raise e => ([], inl (Uncaught e))
  end.

(** [try: body / except Exception as e: handler e].  [st.stop()] is not an
    [Exception] and passes through. *)
Definition try_except {A} (body : Script A) (handler : exn -> Script A) : Script A :=
  match body with
  | (t, inl (Uncaught e)) => let '(t', r) := handler e in (t ++ t', r)
  | _ => body
  end.

(** [for row in rows: body row] *)
Fixpoint for_each {A} (rows : list A) (body : A -> Script unit) : Script unit :=
  match rows with
  | [] => ret tt
  | r :: rest => body r ;;; for_each rest body
  end.

Definition when (b : bool) (m : Script unit) : Script unit :=
  if b then m else ret tt.

(** What a run of the script meets outside itself: the file, the entry of
    the cache of [load_rules], the positions of the three sliders, the
    user's choice in the select box, and what the plotting calls of the graph
    section give back. *)
Record Session := mkSession {
  rules_pkl : artifact;
  st_cache : option pyvalue;
  min_sup_slider : float;
  min_conf_slider : float;
  min_lift_slider : float;
  selectbox_choice : list string -> string;
  plt_subplots : result unit;
  nx_spring_layout : DiGraph -> result unit;
  nx_draw : DiGraph -> result unit;
  nx_draw_networkx_edge_labels : DiGraph -> gmap (string * string) float -> result unit;
  st_pyplot_figure : DiGraph -> result unit
}.

(** [sorted(list(set(filtered_df['antecedents'].unique())))], line 84. *)
Fixpoint insert_item (x : string) (l : list string) : list string :=
  match l with
  | [] => [x]
  | y :: t => if String.leb x y then x :: y :: t else y :: insert_item x t
  end.

Definition all_items (filtered_df : DataFrame) : list string :=
  foldr insert_item [] (remove_dups (map antecedents filtered_df)).

Definition no_item : string := "(Select Item)".

(** Lines 74-78. *)
Definition metric_cards (filtered_df : DataFrame) : Script unit :=
  call (st_metric "Total Rules Found" (Count (length filtered_df))) ;;;
  call (st_metric "Avg Confidence" (Aggregate (mean (map confidence filtered_df)))) ;;;
  call (st_metric "Avg Lift" (Aggregate (mean (map lift filtered_df)))) ;;;
  call (st_metric "Strongest Link" (Aggregate (max (map lift filtered_df)))).

(** Lines 83-98. *)
Definition product_recommender `{SortValues} (s : Session)
    (filtered_df : DataFrame) : Script unit :=
  call (st_subheader "Product Recommender") ;;;
  call (st_selectbox "Select a product to see what customers buy with it:"
          (no_item :: all_items filtered_df)) ;;;
  let selected_item := selectbox_choice s (no_item :: all_items filtered_df) in
  when (negb (String.eqb selected_item no_item))
    (if negb (empty (specific_rules filtered_df selected_item)) then
       call (st_success ("Customers who buy **" +:+ selected_item +:+ "** also buy:")) ;;;
       for_each (recommendations filtered_df selected_item)
         (fun row => call (st_write (consequents row) (confidence row) (lift row)))
     else
       call (st_info ("No strong associations found for " +:+ selected_item
                        +:+ " with current settings."))).

(** The body of the [try], lines 111-131. *)
Definition graph_body `{SortValues} (s : Session) (filtered_df : DataFrame) : Script unit :=
  let G := build_graph (graph_data filtered_df) in
  lib (plt_subplots s) ;;;
  lib (nx_spring_layout s G) ;;;
  lib (nx_draw s G) ;;;
  lib (nx_draw_networkx_edge_labels s G (edges G)) ;;;
  lib (st_pyplot_figure s G) ;;;
  call (st_pyplot G).

(** Lines 105-133. *)
Definition network_graph `{SortValues} (s : Session) (filtered_df : DataFrame) : Script unit :=
  call (st_subheader "Association Network") ;;;
  call (st_caption "Visualizing the top 20 strongest rules (by Lift)") ;;;
  try_except (graph_body s filtered_df)
    (fun e => call (st_error ("Error generating graph: " +:+ exn_msg e))).

(** Lines 135-141. *)
Definition detailed_data (filtered_df : DataFrame) : Script unit :=
  call (st_subheader "Raw Association Rules") ;;;
  call (st_dataframe filtered_df).

Definition missing_message : string :=
  "'rules.pkl' not found! Please run 'generate_model.py' first.".

Definition no_rules_message : string :=
  "No rules found with these settings. Try lowering the filters in the sidebar.".

(** The whole script, top to bottom. *)
Definition dashboard `{SortValues} (s : Session) : Script unit :=
  call st_set_page_config ;;;
  call (st_markdown "<style>") ;;;
  rules_df <- lib (load_rules (st_cache s) (rules_pkl s)) ;;
  call (st_sidebar_title "Settings") ;;;
  call (st_sidebar_write "Refine your analysis rules.") ;;;
  match rules_df with
  | PyNone => ret tt
  | _ =>
      call (st_sidebar_slider "Min Support") ;;;
      call (st_sidebar_slider "Min Confidence") ;;;
      call (st_sidebar_slider "Min Lift")
  end ;;;
  view <- lib (filtered_df rules_df (min_sup_slider s) (min_conf_slider s)
                 (min_lift_slider s)) ;;
  call (st_title "Market Basket Analysis Dashboard") ;;;
  call (st_markdown
          "Discover buying patterns and product associations from your sales data.") ;;;
  match rules_df with
  | PyNone => call (st_error missing_message) ;;; st_stop
  | _ => ret tt
  end ;;;
  (if empty view then call (st_warning no_rules_message) ;;; st_stop else ret tt) ;;;
  metric_cards view ;;;
  call st_divider ;;;
  product_recommender s view ;;;
  call st_divider ;;;
  call (st_tabs ["Network Graph"; "Detailed Data"]) ;;;
  network_graph s view ;;;
  detailed_data view.

(** The calls a run made, and how it ended. *)
Definition page {A} (m : Script A) : list event := fst m.
Definition ending {A} (m : Script A) : signal + A := snd m.

(** ** The calls of a run, section by section *)

(** The calls before the guards of lines 65-71. *)
Definition opening_calls (loaded : bool) : list event :=
  [st_set_page_config; st_markdown "<style>";
   st_sidebar_title "Settings"; st_sidebar_write "Refine your analysis rules."]
  ++ (if loaded then
        [st_sidebar_slider "Min Support"; st_sidebar_slider "Min Confidence";
         st_sidebar_slider "Min Lift"]
      else [])
  ++ [st_title "Market Basket Analysis Dashboard";
      st_markdown
        "Discover buying patterns and product associations from your sales data."].

Definition metric_calls (view : DataFrame) : list event :=
  [st_metric "Total Rules Found" (Count (length view));
   st_metric "Avg Confidence" (Aggregate (mean (map confidence view)));
   st_metric "Avg Lift" (Aggregate (mean (map lift view)));
   st_metric "Strongest Link" (Aggregate (max (map lift view)))].

(** The calls of the recommender section. *)
Definition recommender_calls `{SortValues} (s : Session) (view : DataFrame)
    : list event :=
  let options := no_item :: all_items view in
  let selected_item := selectbox_choice s options in
  [st_subheader "Product Recommender";
   st_selectbox "Select a product to see what customers buy with it:" options]
  ++ (if String.eqb selected_item no_item then []
      else if empty (specific_rules view selected_item) then
        [st_info ("No strong associations found for " +:+ selected_item
                    +:+ " with current settings.")]
      else
        st_success ("Customers who buy **" +:+ selected_item +:+ "** also buy:")
        :: map (fun row => st_write (consequents row) (confidence row) (lift row))
             (recommendations view selected_item)).

(** What the graph section shows: the figure, or the text of the error. *)
Definition graph_result `{SortValues} (s : Session) (view : DataFrame) : event :=
  match ending (graph_body s view) with
  | inl (Uncaught e) => st_error ("Error generating graph: " +:+ exn_msg e)
  | _ => st_pyplot (build_graph (graph_data view))
  end.

(** A row meets the three lower bounds, each of them inclusive. *)
Definition meets (min_support min_confidence min_lift : float) (r : Rule) : Prop :=
  ge (support r) min_support = true /\
  ge (confidence r) min_confidence = true /\
  ge (lift r) min_lift = true.

(** The lookup and the selection of the graph as they would be with the
    stable order of ties. *)
Definition stable_recommendations (filtered_df : DataFrame)
    (selected_item : string) : DataFrame :=
  @recommendations stable_kind filtered_df selected_item.

Definition stable_graph_data (filtered_df : DataFrame) : DataFrame :=
  @graph_data stable_kind filtered_df.

(* ================================================================== *)
(** * Sample data *)
(* ================================================================== *)

(** The store of the specification's scenario, with its thresholds
    (0.03, 0.3, 1.0). *)
Definition rule_AB : Rule := mkRule "A" "B" 0.05 0.4 1.2.
Definition rule_AC : Rule := mkRule "A" "C" 0.05 0.9 2.0.
Definition rule_DE : Rule := mkRule "D" "E" 0.01 0.1 0.9.
Definition scenario_store : DataFrame := [rule_AB; rule_AC; rule_DE].

(** Twenty-four rules for one antecedent.  Their confidences differ from
    row to row except for the rules to "B03" and "B08" (both 0.87), which
    come fifth and sixth in descending order; their lifts differ except for
    the rules to "B01" and "B03" (both 2.1), which come twentieth and
    twenty-first. *)
Definition ranked_store : DataFrame :=
  [mkRule "A" "B01" 0.05 0.53 2.1;
   mkRule "A" "B02" 0.05 0.57 2.9;
   mkRule "A" "B03" 0.05 0.87 2.1;
   mkRule "A" "B04" 0.05 0.73 2.3;
   mkRule "A" "B05" 0.05 0.89 3.9;
   mkRule "A" "B06" 0.05 0.55 4.0;
   mkRule "A" "B07" 0.05 0.59 2.4;
   mkRule "A" "B08" 0.05 0.87 2.2;
   mkRule "A" "B09" 0.05 0.69 2.0;
   mkRule "A" "B10" 0.05 0.67 3.1;
   mkRule "A" "B11" 0.05 0.51 3.0;
   mkRule "A" "B12" 0.05 0.65 3.7;
   mkRule "A" "B13" 0.05 0.93 3.8;
   mkRule "A" "B14" 0.05 0.63 1.8;
   mkRule "A" "B15" 0.05 0.85 2.8;
   mkRule "A" "B16" 0.05 0.95 3.3;
   mkRule "A" "B17" 0.05 0.79 2.5;
   mkRule "A" "B18" 0.05 0.75 2.6;
   mkRule "A" "B19" 0.05 0.61 3.2;
   mkRule "A" "B20" 0.05 0.77 1.9;
   mkRule "A" "B21" 0.05 0.91 3.6;
   mkRule "A" "B22" 0.05 0.71 3.4;
   mkRule "A" "B23" 0.05 0.81 3.5;
   mkRule "A" "B24" 0.05 0.83 2.7].

(** A pair of rules listed twice with different lifts. *)
Definition duplicate_store : DataFrame :=
  [mkRule "A" "B" 0.05 0.5 3.0; mkRule "C" "D" 0.05 0.5 2.0;
   mkRule "A" "B" 0.05 0.5 1.5].

(** Sessions: nothing cached, the sliders at their defaults of lines 48-50,
    every plotting call succeeding except [nx.draw], which gives back
    [draw]. *)
Definition session_with (file : artifact) (choice : string)
    (draw : result unit) : Session :=
  {| rules_pkl := file;
     st_cache := None;
     min_sup_slider := 0.03;
     min_conf_slider := 0.3;
     min_lift_slider := 1.0;
     selectbox_choice := fun _ => choice;
     plt_subplots := Return tt;
     nx_spring_layout := fun _ => Return tt;
     nx_draw := fun _ => draw;
     nx_draw_networkx_edge_labels := fun _ _ => Return tt;
     st_pyplot_figure := fun _ => Return tt |}.

Definition unpickling_error : exn :=
  Exception "UnpicklingError" ["PickleError"] "invalid load key, 'x'.".

Definition draw_error : exn :=
  Exception "ValueError" [] "Received invalid argument(s): arrowsize".

(** The calls that belong to the stages after the guards of lines 65-71:
    metric cards, recommender, graph and table. *)
Definition downstream (ev : event) : bool :=
  match ev with
  | st_metric _ _ | st_divider | st_subheader _ | st_selectbox _ _
  | st_success _ | st_write _ _ _ | st_info _ | st_tabs _ | st_caption _
  | st_pyplot _ | st_dataframe _ => true
  | st_error body => String.prefix "Error generating graph: " body
  | _ => false
  end.

(* ================================================================== *)
(** * Lemmas: the order of the numbers *)
(* ================================================================== *)

Lemma lex_le_trans a b c : lex_le a b -> lex_le b c -> lex_le a c.
Proof. destruct a as [[? ?] ?], b as [[? ?] ?], c as [[? ?] ?]; simpl; lia. Qed.

Lemma lex_le_total a b : lex_le a b \/ lex_le b a.
Proof. destruct a as [[? ?] ?], b as [[? ?] ?]; simpl; lia. Qed.

Lemma SFleb_key a b :
  a <> S754_nan -> b <> S754_nan ->
  SFleb a b = true <-> lex_le (sf_key a) (sf_key b).
Proof.
  intros Ha Hb. unfold SFleb.
  destruct a as [sa|sa| |sa ma ea], b as [sb|sb| |sb mb eb]; try congruence;
    simpl; try (destruct sa); try (destruct sb); simpl;
    try (split; [intros _; lia | reflexivity]);
    try (split; [discriminate | lia]).
  - change (Pos.compare_cont Eq ma mb) with (Pos.compare ma mb).
    destruct (Z.compare_spec ea eb); simpl;
      try destruct (Pos.compare_spec ma mb); simpl;
      split; try discriminate; try reflexivity; lia.
  - change (Pos.compare_cont Eq ma mb) with (Pos.compare ma mb).
    destruct (Z.compare_spec ea eb); simpl;
      try destruct (Pos.compare_spec ma mb); simpl;
      split; try discriminate; try reflexivity; lia.
Qed.

Lemma SFleb_true_not_nan a b :
  SFleb a b = true -> a <> S754_nan /\ b <> S754_nan.
Proof. destruct a, b; simpl; try discriminate; split; discriminate. Qed.

Lemma is_nan_Prim2SF x : is_nan x = false <-> Prim2SF x <> S754_nan.
Proof.
  unfold is_nan. rewrite FloatAxioms.eqb_spec. unfold SFeqb.
  destruct (Prim2SF x) as [s|s| |s m e]; simpl.
  - split; [discriminate | reflexivity].
  - destruct s; (split; [discriminate | reflexivity]).
  - split; [discriminate | congruence].
  - destruct s; rewrite Z.compare_refl;
      change (Pos.compare_cont Eq m m) with (Pos.compare m m);
      rewrite Pos.compare_refl; (split; [discriminate | reflexivity]).
Qed.

(** A comparison that holds has no NaN on either side. *)
Lemma ge_not_nan x y : ge x y = true -> is_nan x = false /\ is_nan y = false.
Proof.
  unfold ge. rewrite FloatAxioms.leb_spec. intros H.
  apply SFleb_true_not_nan in H. rewrite !is_nan_Prim2SF. tauto.
Qed.

Lemma ge_total x y :
  is_nan x = false -> is_nan y = false -> ge x y = true \/ ge y x = true.
Proof.
  rewrite !is_nan_Prim2SF. intros Hx Hy. unfold ge.
  rewrite !FloatAxioms.leb_spec, !SFleb_key by assumption.
  destruct (lex_le_total (sf_key (Prim2SF x)) (sf_key (Prim2SF y))); auto.
Qed.

Lemma ge_trans x y z : ge x y = true -> ge y z = true -> ge x z = true.
Proof.
  unfold ge. rewrite !FloatAxioms.leb_spec. intros Hxy Hyz.
  pose proof (SFleb_true_not_nan _ _ Hxy) as [? ?].
  pose proof (SFleb_true_not_nan _ _ Hyz) as [? ?].
  rewrite SFleb_key in * by assumption.
  eapply lex_le_trans; eassumption.
Qed.

Lemma comes_before_total x y :
  comes_before x y = true \/ comes_before y x = true.
Proof.
  unfold comes_before.
  destruct (is_nan y) eqn:Hy; [now left|].
  destruct (is_nan x) eqn:Hx; [now right|].
  simpl. apply ge_total; assumption.
Qed.

Lemma comes_before_trans x y z :
  comes_before x y = true -> comes_before y z = true -> comes_before x z = true.
Proof.
  unfold comes_before.
  destruct (is_nan z) eqn:Hz; [reflexivity|]. simpl.
  intros Hxy Hyz.
  destruct (ge_not_nan _ _ Hyz) as [Hy _]. rewrite Hy in Hxy. simpl in Hxy.
  eapply ge_trans; eassumption.
Qed.

Lemma comes_before_ge x y :
  is_nan y = false -> comes_before x y = true -> ge x y = true.
Proof. unfold comes_before. intros ->. simpl. tauto. Qed.

(* ================================================================== *)
(** * Lemmas: the threshold filter *)
(* ================================================================== *)

Lemma mask_meets s c l r : mask s c l r = true <-> meets s c l r.
Proof.
  unfold mask, meets. rewrite !andb_true_iff. tauto.
Qed.

Lemma mask_false s c l r :
  mask s c l r = false ->
  ge (support r) s = false \/ ge (confidence r) c = false \/ ge (lift r) l = false.
Proof.
  unfold mask.
  destruct (ge (support r) s), (ge (confidence r) c), (ge (lift r) l);
    simpl; auto.
Qed.

Lemma threshold_filter_app df1 df2 s c l :
  threshold_filter (df1 ++ df2) s c l
  = (threshold_filter df1 s c l ++ threshold_filter df2 s c l).
Proof. apply List.filter_app. Qed.

Lemma threshold_filter_cons r df s c l :
  threshold_filter (r :: df) s c l
  = if mask s c l r then r :: threshold_filter df s c l
    else threshold_filter df s c l.
Proof. reflexivity. Qed.

Lemma threshold_filter_sublist df s c l :
  sublist (threshold_filter df s c l) df.
Proof.
  induction df as [|r df IH]; [constructor|].
  rewrite threshold_filter_cons.
  destruct (mask s c l r); now constructor.
Qed.

Lemma threshold_filter_In df s c l r :
  In r (threshold_filter df s c l) <-> In r df /\ meets s c l r.
Proof.
  unfold threshold_filter. rewrite List.filter_In, mask_meets. tauto.
Qed.

(** No row of a filtered view has a missing value in a thresholded
    column. *)
Lemma threshold_filter_not_nan df s c l r :
  In r (threshold_filter df s c l) ->
  is_nan (support r) = false /\ is_nan (confidence r) = false
  /\ is_nan (lift r) = false.
Proof.
  rewrite threshold_filter_In. intros [_ (Hs & Hc & Hl)].
  apply ge_not_nan in Hs, Hc, Hl. tauto.
Qed.

(** C1.  The filtered view holds exactly the rows of the store whose
    support, confidence and lift all reach their lower bound, the bound
    itself included; a row of the store that is left out fails at least one
    of the three comparisons.  Row by row, in store order, a row is kept if
    and only if the three comparisons hold. *)
Theorem threshold_filter_exact
    (store : DataFrame) (min_support min_confidence min_lift : float) :
  let view := threshold_filter store min_support min_confidence min_lift in
  (forall r, In r view <->
     In r store /\
     ge (support r) min_support = true /\
     ge (confidence r) min_confidence = true /\
     ge (lift r) min_lift = true)
  /\ (forall r, In r store -> ~ In r view ->
        ge (support r) min_support = false \/
        ge (confidence r) min_confidence = false \/
        ge (lift r) min_lift = false)
  /\ (forall before r after, store = (before ++ r :: after) ->
        view = (threshold_filter before min_support min_confidence min_lift
                ++ (if ge (support r) min_support
                       && ge (confidence r) min_confidence
                       && ge (lift r) min_lift
                    then [r] else [])
                ++ threshold_filter after min_support min_confidence min_lift)).
Proof.
  intros view. subst view. split; [|split].
  - intros r. apply threshold_filter_In.
  - intros r Hin Hout.
    apply mask_false.
    destruct (mask min_support min_confidence min_lift r) eqn:Hm; [|reflexivity].
    exfalso. apply Hout. apply threshold_filter_In.
    split; [assumption|]. now apply mask_meets.
  - intros before r after ->.
    rewrite threshold_filter_app, threshold_filter_cons. unfold mask.
    now destruct (ge (support r) min_support && ge (confidence r) min_confidence
                  && ge (lift r) min_lift).
Qed.

(** C4.  Filtering keeps the order of the store: when row [a] stands before
    row [b] in the store and both meet the thresholds, [a] stands before [b]
    in the filtered view, which is the filtered part before [a], then [a],
    the filtered part between them, [b], and the filtered rest. *)
Theorem threshold_filter_order_preserving
    (store : DataFrame) (min_support min_confidence min_lift : float)
    (before between after : DataFrame) (a b : Rule) :
  store = (before ++ a :: between ++ b :: after) ->
  meets min_support min_confidence min_lift a ->
  meets min_support min_confidence min_lift b ->
  threshold_filter store min_support min_confidence min_lift
  = (threshold_filter before min_support min_confidence min_lift
     ++ a :: threshold_filter between min_support min_confidence min_lift
     ++ b :: threshold_filter after min_support min_confidence min_lift)
  /\ sublist (threshold_filter store min_support min_confidence min_lift) store.
Proof.
  intros -> Ha Hb. split; [|apply threshold_filter_sublist].
  apply mask_meets in Ha, Hb.
  rewrite threshold_filter_app, threshold_filter_cons, Ha.
  rewrite threshold_filter_app, threshold_filter_cons, Hb.
  reflexivity.
Qed.

Lemma threshold_filter_order_preserving_witness :
  [rule_AB; rule_DE; rule_AC] = [] ++ rule_AB :: [rule_DE] ++ rule_AC :: []
  /\ meets 0.03 0.3 1.0 rule_AB
  /\ meets 0.03 0.3 1.0 rule_AC
  /\ threshold_filter [rule_AB; rule_DE; rule_AC] 0.03 0.3 1.0
     = threshold_filter [] 0.03 0.3 1.0
       ++ rule_AB :: threshold_filter [rule_DE] 0.03 0.3 1.0
       ++ rule_AC :: threshold_filter [] 0.03 0.3 1.0
  /\ sublist (threshold_filter [rule_AB; rule_DE; rule_AC] 0.03 0.3 1.0)
       [rule_AB; rule_DE; rule_AC].
Proof.
  split; [reflexivity|].
  split; [repeat split; reflexivity|].
  split; [repeat split; reflexivity|].
  apply (threshold_filter_order_preserving [rule_AB; rule_DE; rule_AC]
           0.03 0.3 1.0 [] [rule_DE] [] rule_AB rule_AC);
    [reflexivity | repeat split; reflexivity | repeat split; reflexivity].
Defined.

(** C10.  Filtering selects rows and rewrites none: every row of the
    filtered view is a row of the store, at some position of it, with its
    antecedent, consequent, support, confidence and lift unchanged. *)
Theorem threshold_filter_rows_unchanged
    (store : DataFrame) (min_support min_confidence min_lift : float) :
  Forall
    (fun r => exists (j : nat) (r' : Rule),
       store !! j = Some r' /\
       antecedents r = antecedents r' /\
       consequents r = consequents r' /\
       support r = support r' /\
       confidence r = confidence r' /\
       lift r = lift r')
    (threshold_filter store min_support min_confidence min_lift).
Proof.
  apply Forall_forall. intros r Hr.
  apply list_elem_of_In in Hr.
  apply threshold_filter_In in Hr as [Hr _].
  apply list_elem_of_In, list_elem_of_lookup in Hr as [j Hj].
  exists j, r. repeat split; assumption.
Qed.

(** The filter on the specification's scenario: the first two rows pass, the
    third fails all three bounds; a value equal to its bound passes. *)
Example threshold_filter_scenario :
  threshold_filter scenario_store 0.03 0.3 1.0 = [rule_AB; rule_AC]
  /\ mask 0.03 0.3 1.0 rule_DE = false
  /\ threshold_filter [mkRule "A" "B" 0.03 0.3 1.0] 0.03 0.3 1.0
     = [mkRule "A" "B" 0.03 0.3 1.0]
  /\ threshold_filter [mkRule "A" "B" nan 0.5 2.0] 0.03 0.3 1.0 = [].
Proof. repeat split; reflexivity. Qed.

(* ================================================================== *)
(** * Lemmas: sorting *)
(* ================================================================== *)

Section Insertion.

Variable col : Rule -> float.
Variable goes_first : Rule -> Rule -> bool.

Let R (a b : Rule) : Prop := comes_before (col a) (col b) = true.

Hypothesis goes_first_true : forall x y, goes_first x y = true -> R x y.
Hypothesis goes_first_false : forall x y, goes_first x y = false -> R y x.

Lemma insert_where_perm x l : insert_where goes_first x l ≡ₚ x :: l.
Proof.
  induction l as [|y t IH]; simpl; [reflexivity|].
  destruct (goes_first x y); [reflexivity|].
  rewrite IH. apply perm_swap.
Qed.

Lemma insert_where_sorted x l :
  StronglySorted R l -> StronglySorted R (insert_where goes_first x l).
Proof.
  induction l as [|y t IH]; simpl; intros Hs.
  - repeat constructor.
  - apply StronglySorted_cons in Hs as [Hy Ht].
    destruct (goes_first x y) eqn:E.
    + apply goes_first_true in E.
      constructor; [constructor; assumption|].
      constructor; [assumption|].
      eapply Forall_impl; [exact Hy|].
      intros z Hz. unfold R in *. eapply comes_before_trans; eassumption.
    + apply goes_first_false in E.
      constructor; [now apply IH|].
      rewrite (insert_where_perm x t). now constructor.
Qed.

Lemma foldr_insert_where_perm df :
  foldr (insert_where goes_first) [] df ≡ₚ df.
Proof.
  induction df as [|x df IH]; simpl; [reflexivity|].
  rewrite insert_where_perm. now rewrite IH.
Qed.

Lemma foldr_insert_where_sorted df :
  StronglySorted R (foldr (insert_where goes_first) [] df).
Proof.
  induction df as [|x df IH]; simpl; [constructor|].
  now apply insert_where_sorted.
Qed.

End Insertion.

(** Both sorts give the documented result of [sort_values]. *)
Lemma stable_kind_sorts : sorts_descending stable_kind.
Proof.
  intros col df. unfold sort_values, stable_kind, sort_stable, descending. split.
  - apply foldr_insert_where_perm.
  - apply foldr_insert_where_sorted.
    + auto.
    + intros x y E.
      destruct (comes_before_total (col x) (col y)); congruence.
Qed.

Lemma ties_reversed_kind_sorts : sorts_descending ties_reversed_kind.
Proof.
  intros col df.
  unfold sort_values, ties_reversed_kind, sort_ties_reversed, descending. split.
  - apply foldr_insert_where_perm.
  - apply foldr_insert_where_sorted.
    + intros x y E. apply negb_true_iff in E.
      destruct (comes_before_total (col x) (col y)); congruence.
    + intros x y E. now apply negb_false_iff in E.
Qed.

(** [sort_stable] is stable: for every key, the rows that tie on it stand in
    the sorted table in the order they had in the original. *)
Lemma insert_stable_ties col k x l :
  List.filter (same_key col k)
    (insert_where (fun x y => comes_before (col x) (col y)) x l)
  = List.filter (same_key col k) (x :: l).
Proof.
  induction l as [|y t IH]; [reflexivity|].
  cbn [insert_where].
  destruct (comes_before (col x) (col y)) eqn:E; [reflexivity|].
  cbn [List.filter] in *. rewrite IH.
  destruct (same_key col k x) eqn:Kx, (same_key col k y) eqn:Ky; try reflexivity.
  exfalso. unfold same_key in Kx, Ky.
  apply andb_true_iff in Kx as [_ Kx], Ky as [Ky _].
  rewrite (comes_before_trans _ _ _ Kx Ky) in E. discriminate.
Qed.

Lemma sort_stable_ties col k df :
  List.filter (same_key col k) (sort_stable col df)
  = List.filter (same_key col k) df.
Proof.
  induction df as [|x df IH]; [reflexivity|].
  unfold sort_stable in *. cbn [foldr].
  rewrite insert_stable_ties. cbn [List.filter]. now rewrite IH.
Qed.

(** A sorted relation can be replaced by one that holds wherever the first
    does between rows of the table. *)
Lemma StronglySorted_impl_In (R R' : Rule -> Rule -> Prop) (l : DataFrame) :
  (forall a b, In a l -> In b l -> R a b -> R' a b) ->
  StronglySorted R l -> StronglySorted R' l.
Proof.
  induction l as [|x l IH]; intros Himp Hs; [constructor|].
  apply StronglySorted_cons in Hs as [Hx Hl].
  constructor.
  - apply IH; [|assumption]. intros a b Ha Hb. apply Himp; now right.
  - apply Forall_forall. intros y Hy. apply list_elem_of_In in Hy.
    apply Himp; [now left | now right |].
    rewrite Forall_forall in Hx. apply Hx. now apply list_elem_of_In.
Qed.

Lemma In_take (r : Rule) (n : nat) (df : DataFrame) :
  In r (take n df) -> In r df.
Proof. rewrite <- !list_elem_of_In. apply subseteq_take. Qed.

Lemma In_drop (r : Rule) (n : nat) (df : DataFrame) :
  In r (drop n df) -> In r df.
Proof. rewrite <- !list_elem_of_In. apply subseteq_drop. Qed.

(** The first [n] rows of a table sorted on a column that has no missing
    value: they are sorted, and no row left out has a larger key than a row
    taken. *)
Lemma head_of_descending (col : Rule -> float) (n : nat) (sorted : DataFrame) :
  (forall r, In r sorted -> is_nan (col r) = false) ->
  descending col sorted ->
  StronglySorted (fun a b => ge (col a) (col b) = true) (df_head n sorted)
  /\ Forall (fun r' => Forall (fun r => ge (col r) (col r') = true)
                         (df_head n sorted)) (drop n sorted).
Proof.
  intros Hnan Hs. unfold df_head, descending in *.
  rewrite <- (take_drop n sorted) in Hs.
  split.
  - apply StronglySorted_app_1_l in Hs.
    revert Hs. apply StronglySorted_impl_In.
    intros a b _ Hb. apply comes_before_ge, Hnan.
    eapply In_take, Hb.
  - apply Forall_forall. intros r' Hr'. apply Forall_forall. intros r Hr.
    apply comes_before_ge.
    + eapply Hnan, In_drop, list_elem_of_In, Hr'.
    + eapply (StronglySorted_app_1_elem_of _ _ _ _ _ Hs); eassumption.
Qed.

(* ================================================================== *)
(** * Lemmas: the recommendation lookup *)
(* ================================================================== *)

Lemma specific_rules_In `{SV : SortValues} (Hsort : sorts_descending SV)
    (view : DataFrame) (item : string) (r : Rule) :
  In r (specific_rules view item) <-> In r view /\ antecedents r = item.
Proof.
  unfold specific_rules.
  destruct (Hsort confidence
              (List.filter (fun r => String.eqb (antecedents r) item) view))
    as [Hp _].
  rewrite <- !list_elem_of_In, Hp, list_elem_of_In, List.filter_In.
  rewrite String.eqb_eq, list_elem_of_In. tauto.
Qed.

(** C2, as the code has it.  Whatever order the sort gives to ties: the
    lookup returns only rows of the filtered view whose antecedent is the
    selected item; at most 5 of them, all of them when there are fewer; their
    confidences never increase along the list; and they are the top of the
    matching rows, since together with the rows left out they are the
    matching rows, and no row left out has a larger confidence than a
    returned one. *)
Theorem recommendations_ranked `{SV : SortValues}
    (Hsort : sorts_descending SV)
    (store : DataFrame) (min_support min_confidence min_lift : float)
    (selected_item : string) :
  let view := threshold_filter store min_support min_confidence min_lift in
  let matching :=
    List.filter (fun r => String.eqb (antecedents r) selected_item) view in
  let out := recommendations view selected_item in
  Forall (fun r => antecedents r = selected_item /\ In r view) out
  /\ length out = Nat.min 5 (length matching)
  /\ length out <= 5
  /\ StronglySorted (fun a b => ge (confidence a) (confidence b) = true) out
  /\ exists rest,
       out ++ rest ≡ₚ matching
       /\ Forall (fun r' =>
            Forall (fun r => ge (confidence r) (confidence r') = true) out) rest.
Proof.
  intros view matching out.
  assert (Hs0 : specific_rules view selected_item ≡ₚ matching
                /\ descending confidence (specific_rules view selected_item))
    by apply (Hsort confidence matching).
  destruct Hs0 as [Hp Hd].
  assert (Hnan : forall r, In r (specific_rules view selected_item) ->
                           is_nan (confidence r) = false).
  { intros r Hr. apply (specific_rules_In Hsort) in Hr as [Hr _].
    now apply threshold_filter_not_nan in Hr. }
  destruct (head_of_descending confidence 5 _ Hnan Hd) as [Hs Hrest].
  assert (Hlen : length out = Nat.min 5 (length matching)).
  { unfold out, recommendations, df_head.
    now rewrite length_take, (Permutation_length Hp). }
  split; [|split; [|split; [|split]]].
  - apply Forall_forall. intros r Hr.
    unfold out, recommendations, df_head in Hr.
    apply list_elem_of_In, In_take in Hr.
    apply (specific_rules_In Hsort) in Hr. tauto.
  - exact Hlen.
  - rewrite Hlen. apply Nat.le_min_l.
  - exact Hs.
  - exists (drop 5 (specific_rules view selected_item)). split.
    + unfold out, recommendations, df_head. now rewrite take_drop.
    + exact Hrest.
Qed.

(** The lookup of the specification's scenario: both rules of "A", the more
    confident first; nothing for "D", whose rule the thresholds drop. *)
Example recommendations_scenario :
  threshold_filter scenario_store 0.03 0.3 1.0 = [rule_AB; rule_AC]
  /\ @recommendations stable_kind
       (threshold_filter scenario_store 0.03 0.3 1.0) "A" = [rule_AC; rule_AB]
  /\ @recommendations stable_kind
       (threshold_filter scenario_store 0.03 0.3 1.0) "D" = [].
Proof. repeat split; reflexivity. Qed.

Lemma recommendations_ranked_witness :
  sorts_descending stable_kind /\
  let view := threshold_filter scenario_store 0.03 0.3 1.0 in
  let matching := List.filter (fun r => String.eqb (antecedents r) "A") view in
  let out := @recommendations stable_kind view "A" in
  Forall (fun r => antecedents r = "A" /\ In r view) out
  /\ length out = Nat.min 5 (length matching)
  /\ length out <= 5
  /\ StronglySorted (fun a b => ge (confidence a) (confidence b) = true) out
  /\ exists rest,
       out ++ rest ≡ₚ matching
       /\ Forall (fun r' =>
            Forall (fun r => ge (confidence r) (confidence r') = true) out) rest.
Proof.
  split; [exact stable_kind_sorts|].
  exact (recommendations_ranked (SV := stable_kind) stable_kind_sorts
           scenario_store 0.03 0.3 1.0 "A").
Defined.

(** C2 as stated does not hold.  In [ranked_store] the rules to "B03" and
    to "B08" have the same confidence and come fifth and sixth in descending
    order, "B03" standing before "B08" in the filtered view.  The stable
    order of ties would show "B03" as the fifth recommendation; a sort that
    gives the documented result of [sort_values] shows "B08" in its place,
    and "B03" not at all. *)
Lemma recommendations_ties_not_stable :
  let view := threshold_filter ranked_store 0.03 0.3 1.0 in
  sorts_descending ties_reversed_kind
  /\ view = ranked_store
  /\ (view !! 2 = Some (mkRule "A" "B03" 0.05 0.87 2.1)
      /\ view !! 7 = Some (mkRule "A" "B08" 0.05 0.87 2.2))
  /\ map consequents (stable_recommendations view "A")
     = ["B16"; "B13"; "B21"; "B05"; "B03"]
  /\ map consequents (@recommendations ties_reversed_kind view "A")
     = ["B16"; "B13"; "B21"; "B05"; "B08"]
  /\ ~ (forall SV : SortValues, sorts_descending SV ->
        forall store s c l item,
          @recommendations SV (threshold_filter store s c l) item
          = stable_recommendations (threshold_filter store s c l) item).
Proof.
  intros view. split; [exact ties_reversed_kind_sorts|].
  split; [vm_compute; reflexivity|].
  split; [split; vm_compute; reflexivity|].
  split; [vm_compute; reflexivity|].
  split; [vm_compute; reflexivity|].
  intros H.
  specialize (H ties_reversed_kind ties_reversed_kind_sorts
                ranked_store 0.03 0.3 1.0 "A")%float.
  apply (f_equal (fun rows => consequents <$> rows !! 4)) in H.
  vm_compute in H. discriminate H.
Qed.

(* ================================================================== *)
(** * Lemmas: the graph builder *)
(* ================================================================== *)

Lemma fold_add_row_lookup (rows : DataFrame) (G0 : DiGraph) (k : string * string) :
  edges (fold_left add_row rows G0) !! k
  = match last (List.filter (same_edge k) rows) with
    | Some r => Some (lift r)
    | None => edges G0 !! k
    end.
Proof.
  revert G0. induction rows as [|r rows IH]; intros G0; [reflexivity|].
  cbn [fold_left List.filter]. rewrite IH.
  unfold same_edge at 2. case_bool_decide as E.
  - rewrite last_cons.
    destruct (last (List.filter (same_edge k) rows)); [reflexivity|].
    cbn [add_row add_edge edges]. fold (endpoints r). rewrite E.
    now rewrite lookup_insert_eq.
  - destruct (last (List.filter (same_edge k) rows)); [reflexivity|].
    cbn [add_row add_edge edges]. fold (endpoints r).
    now rewrite lookup_insert_ne.
Qed.

Lemma fold_add_row_size (rows : DataFrame) (G0 : DiGraph) :
  size (edges (fold_left add_row rows G0)) <= size (edges G0) + length rows.
Proof.
  revert G0. induction rows as [|r rows IH]; intros G0; cbn [fold_left length].
  - lia.
  - etransitivity; [apply IH|].
    cbn [add_row add_edge edges]. rewrite map_size_insert.
    destruct (edges G0 !! _); simpl; lia.
Qed.

Lemma build_graph_lookup (rows : DataFrame) (u v : string) :
  edges (build_graph rows) !! (u, v)
  = lift <$> last (List.filter (same_edge (u, v)) rows).
Proof.
  unfold build_graph.
  rewrite (fold_add_row_lookup rows empty_graph (u, v)).
  now destruct (last (List.filter (same_edge (u, v)) rows)).
Qed.

Lemma build_graph_size (rows : DataFrame) :
  size (edges (build_graph rows)) <= length rows.
Proof.
  unfold build_graph.
  etransitivity; [apply fold_add_row_size|].
  cbn [empty_graph edges]. rewrite map_size_empty. lia.
Qed.

(** C3, as the code has it.  Whatever order the sort gives to ties: the
    rows the graph is built from are the first 20 of the filtered view in
    descending order of lift (all of them when there are fewer), so no row
    left out has a larger lift than a row taken; the graph has at most 20
    edges; the weight of the edge from [u] to [v] is the lift of the last of
    these rows with antecedent [u] and consequent [v], and there is no such
    edge when there is no such row; so every edge carries the lift of a row
    it comes from, and a pair that occurs twice carries the lift of the
    later row. *)
Theorem graph_builder_top_lift `{SV : SortValues}
    (Hsort : sorts_descending SV)
    (store : DataFrame) (min_support min_confidence min_lift : float) :
  let view := threshold_filter store min_support min_confidence min_lift in
  let rows := graph_data view in
  let G := build_graph rows in
  (exists rest,
      rows ++ rest ≡ₚ view
      /\ Forall (fun r' => Forall (fun r => ge (lift r) (lift r') = true) rows) rest)
  /\ length rows = Nat.min 20 (length view)
  /\ StronglySorted (fun a b => ge (lift a) (lift b) = true) rows
  /\ size (edges G) <= 20
  /\ (forall u v,
        edges G !! (u, v) = lift <$> last (List.filter (same_edge (u, v)) rows))
  /\ (forall u v w, edges G !! (u, v) = Some w ->
        exists r, In r rows /\ antecedents r = u /\ consequents r = v
                  /\ lift r = w)
  /\ (forall before r after, rows = before ++ r :: after ->
        (forall r', In r' after -> endpoints r' <> endpoints r) ->
        edges G !! (antecedents r, consequents r) = Some (lift r)).
Proof.
  intros view rows G.
  assert (Hs0 : sort_values lift view ≡ₚ view
                /\ descending lift (sort_values lift view))
    by apply (Hsort lift view).
  destruct Hs0 as [Hp Hd].
  assert (Hnan : forall r, In r (sort_values lift view) -> is_nan (lift r) = false).
  { intros r Hr. apply list_elem_of_In in Hr. rewrite Hp in Hr.
    apply list_elem_of_In in Hr. now apply threshold_filter_not_nan in Hr. }
  destruct (head_of_descending lift 20 _ Hnan Hd) as [Hs Hrest].
  assert (Hlen : length rows = Nat.min 20 (length view)).
  { unfold rows, graph_data, df_head.
    now rewrite length_take, (Permutation_length Hp). }
  assert (Hlook : forall u v,
             edges G !! (u, v) = lift <$> last (List.filter (same_edge (u, v)) rows))
    by (intros u v; apply build_graph_lookup).
  split; [|split; [|split; [|split; [|split; [|split]]]]].
  - exists (drop 20 (sort_values lift view)). split; [|exact Hrest].
    unfold rows, graph_data, df_head. now rewrite take_drop.
  - exact Hlen.
  - exact Hs.
  - transitivity (length rows); [apply build_graph_size|].
    rewrite Hlen. apply Nat.le_min_l.
  - exact Hlook.
  - intros u v w. rewrite Hlook.
    destruct (last (List.filter (same_edge (u, v)) rows)) as [r|] eqn:E;
      [|discriminate].
    intros [= <-]. exists r.
    apply last_Some_elem_of, list_elem_of_In, List.filter_In in E as [Hin Hk].
    unfold same_edge in Hk. apply bool_decide_eq_true in Hk.
    injection Hk as Hu Hv. auto.
  - intros before r after Hrows Hlast.
    rewrite Hlook, Hrows, List.filter_app. cbn [List.filter].
    unfold same_edge at 2. fold (endpoints r).
    rewrite bool_decide_eq_true_2 by reflexivity.
    replace (List.filter (same_edge (endpoints r)) after) with (@nil Rule).
    + now rewrite last_snoc.
    + symmetry.
      rewrite (List.filter_ext_in (same_edge (endpoints r)) (fun _ => false)).
      * apply List.filter_false.
      * intros r' Hr'. apply bool_decide_eq_false_2. now apply Hlast.
Qed.

(** A pair listed twice: the rows in descending order of lift are the pair
    with lift 3, the other rule, the pair again with lift 1.5; the edge of
    the pair ends with the weight of the later row. *)
Example build_graph_overwrites :
  @graph_data stable_kind (threshold_filter duplicate_store 0.03 0.3 1.0)
  = [mkRule "A" "B" 0.05 0.5 3.0; mkRule "C" "D" 0.05 0.5 2.0;
     mkRule "A" "B" 0.05 0.5 1.5]
  /\ edges (build_graph
       (@graph_data stable_kind (threshold_filter duplicate_store 0.03 0.3 1.0)))
     !! ("A", "B") = Some 1.5%float
  /\ size (edges (build_graph
       (@graph_data stable_kind (threshold_filter duplicate_store 0.03 0.3 1.0))))
     = 2.
Proof. repeat split; vm_compute; reflexivity. Qed.

Lemma graph_builder_top_lift_witness :
  sorts_descending stable_kind /\
  let view := threshold_filter duplicate_store 0.03 0.3 1.0 in
  let rows := @graph_data stable_kind view in
  let G := build_graph rows in
  (exists rest,
      rows ++ rest ≡ₚ view
      /\ Forall (fun r' => Forall (fun r => ge (lift r) (lift r') = true) rows) rest)
  /\ length rows = Nat.min 20 (length view)
  /\ StronglySorted (fun a b => ge (lift a) (lift b) = true) rows
  /\ size (edges G) <= 20
  /\ (forall u v,
        edges G !! (u, v) = lift <$> last (List.filter (same_edge (u, v)) rows))
  /\ (forall u v w, edges G !! (u, v) = Some w ->
        exists r, In r rows /\ antecedents r = u /\ consequents r = v
                  /\ lift r = w)
  /\ (forall before r after, rows = before ++ r :: after ->
        (forall r', In r' after -> endpoints r' <> endpoints r) ->
        edges G !! (antecedents r, consequents r) = Some (lift r)).
Proof.
  split; [exact stable_kind_sorts|].
  exact (graph_builder_top_lift (SV := stable_kind) stable_kind_sorts
           duplicate_store 0.03 0.3 1.0).
Defined.

(** C3 as stated does not hold.  In [ranked_store] the rules to "B01" and
    to "B03" have the same lift and come twentieth and twenty-first in
    descending order, "B01" standing before "B03" in the filtered view.  The
    stable order of ties would build the graph with the edge to "B01" and
    without the edge to "B03"; a sort that gives the documented result of
    [sort_values] builds it with the edge to "B03" and without the edge to
    "B01". *)
Lemma graph_data_ties_not_stable :
  let view := threshold_filter ranked_store 0.03 0.3 1.0 in
  sorts_descending ties_reversed_kind
  /\ view = ranked_store
  /\ (view !! 0 = Some (mkRule "A" "B01" 0.05 0.53 2.1)
      /\ view !! 2 = Some (mkRule "A" "B03" 0.05 0.87 2.1))
  /\ map consequents (stable_graph_data view)
     = ["B06"; "B05"; "B13"; "B12"; "B21"; "B23"; "B22"; "B16"; "B19"; "B10";
        "B11"; "B02"; "B15"; "B24"; "B18"; "B17"; "B07"; "B04"; "B08"; "B01"]
  /\ map consequents (@graph_data ties_reversed_kind view)
     = ["B06"; "B05"; "B13"; "B12"; "B21"; "B23"; "B22"; "B16"; "B19"; "B10";
        "B11"; "B02"; "B15"; "B24"; "B18"; "B17"; "B07"; "B04"; "B08"; "B03"]
  /\ (edges (build_graph (stable_graph_data view)) !! ("A", "B01")
      = Some 2.1%float
      /\ edges (build_graph (stable_graph_data view)) !! ("A", "B03") = None)
  /\ (edges (build_graph (@graph_data ties_reversed_kind view)) !! ("A", "B01")
      = None
      /\ edges (build_graph (@graph_data ties_reversed_kind view)) !! ("A", "B03")
         = Some 2.1%float)
  /\ ~ (forall SV : SortValues, sorts_descending SV ->
        forall store s c l,
          @graph_data SV (threshold_filter store s c l)
          = stable_graph_data (threshold_filter store s c l)).
Proof.
  intros view. split; [exact ties_reversed_kind_sorts|].
  split; [vm_compute; reflexivity|].
  split; [split; vm_compute; reflexivity|].
  split; [vm_compute; reflexivity|].
  split; [vm_compute; reflexivity|].
  split; [split; vm_compute; reflexivity|].
  split; [split; vm_compute; reflexivity|].
  intros H.
  specialize (H ties_reversed_kind ties_reversed_kind_sorts
                ranked_store 0.03 0.3 1.0)%float.
  apply (f_equal (fun rows => consequents <$> rows !! 19)) in H.
  vm_compute in H. discriminate H.
Qed.

(* ================================================================== *)
(** * Lemmas: loading *)
(* ================================================================== *)


(* ================================================================== *)
(** * Lemmas: running the script *)
(* ================================================================== *)

Lemma bind_run {A B} (m : Script A) (k : A -> Script B) :
  bind m k
  = match ending m with
    | inl s => (page m, inl s)
    | inr a => (page m ++ page (k a), ending (k a))
    end.
Proof.
  destruct m as [t [s|a]]; simpl; [reflexivity|]. now destruct (k a).
Qed.

Lemma call_then {B} (ev : event) (m : Script B) :
  (call ev ;;; m) = (ev :: page m, ending m).
Proof. rewrite bind_run. reflexivity. Qed.

Lemma for_each_calls {A} (rows : list A) (f : A -> event) :
  for_each rows (fun r => call (f r)) = (map f rows, inr tt).
Proof.
  induction rows as [|r rows IH]; [reflexivity|].
  cbn [for_each]. now rewrite call_then, IH.
Qed.

Lemma product_recommender_run `{SortValues} (s : Session) (view : DataFrame) :
  product_recommender s view = (recommender_calls s view, inr tt).
Proof.
  unfold product_recommender, recommender_calls. cbv zeta.
  rewrite for_each_calls.
  destruct (String.eqb (selectbox_choice s (no_item :: all_items view)) no_item);
    [reflexivity|].
  now destruct (empty (specific_rules view
                         (selectbox_choice s (no_item :: all_items view)))).
Qed.

(** The body of the [try] either draws the graph, or raises. *)
Lemma graph_body_run `{SortValues} (s : Session) (view : DataFrame) :
  graph_body s view = ([st_pyplot (build_graph (graph_data view))], inr tt)
  \/ exists e, graph_body s view = ([], inl (Uncaught e)).
Proof.
  unfold graph_body. cbv zeta.
  destruct (plt_subplots s) as [[]|e]; [|right; now exists e].
  destruct (nx_spring_layout s _) as [[]|e]; [|right; now exists e].
  destruct (nx_draw s _) as [[]|e]; [|right; now exists e].
  destruct (nx_draw_networkx_edge_labels s _ _) as [[]|e];
    [|right; now exists e].
  destruct (st_pyplot_figure s _) as [[]|e]; [|right; now exists e].
  now left.
Qed.

Lemma network_graph_run `{SortValues} (s : Session) (view : DataFrame) :
  network_graph s view
  = ([st_subheader "Association Network";
      st_caption "Visualizing the top 20 strongest rules (by Lift)";
      graph_result s view], inr tt).
Proof.
  unfold network_graph, graph_result.
  destruct (graph_body_run s view) as [E|[e E]]; now rewrite E.
Qed.

(** The four ways a run goes. *)
Lemma app_run_raised `{SortValues} (s : Session) (e : exn) :
  load_rules (st_cache s) (rules_pkl s) = Raise e ->
  dashboard s = ([st_set_page_config; st_markdown "<style>"], inl (Uncaught e)).
Proof. intros E. unfold dashboard. rewrite E. reflexivity. Qed.

Lemma app_run_missing `{SortValues} (s : Session) :
  load_rules (st_cache s) (rules_pkl s) = Return PyNone ->
  dashboard s = (opening_calls false ++ [st_error missing_message], inl Stopped).
Proof. intros E. unfold dashboard. rewrite E. reflexivity. Qed.

Lemma app_run_other `{SortValues} (s : Session) (e : exn) :
  load_rules (st_cache s) (rules_pkl s) = Return (Other e) ->
  dashboard s
  = ([st_set_page_config; st_markdown "<style>";
      st_sidebar_title "Settings"; st_sidebar_write "Refine your analysis rules.";
      st_sidebar_slider "Min Support"; st_sidebar_slider "Min Confidence";
      st_sidebar_slider "Min Lift"], inl (Uncaught e)).
Proof. intros E. unfold dashboard. rewrite E. reflexivity. Qed.

Lemma app_run_no_rules `{SortValues} (s : Session) (store : DataFrame) :
  load_rules (st_cache s) (rules_pkl s) = Return (Table store) ->
  threshold_filter store (min_sup_slider s) (min_conf_slider s)
    (min_lift_slider s) = [] ->
  dashboard s = (opening_calls true ++ [st_warning no_rules_message], inl Stopped).
Proof.
  intros E Hv. unfold dashboard. rewrite E.
  cbv beta iota zeta delta [lib ret bind call filtered_df].
  rewrite Hv. reflexivity.
Qed.

Lemma app_run_rules `{SortValues} (s : Session) (store : DataFrame) :
  load_rules (st_cache s) (rules_pkl s) = Return (Table store) ->
  let view := threshold_filter store (min_sup_slider s) (min_conf_slider s)
                (min_lift_slider s) in
  view <> [] ->
  dashboard s = (opening_calls true ++ metric_calls view
           ++ st_divider :: recommender_calls s view
           ++ [st_divider; st_tabs ["Network Graph"; "Detailed Data"];
               st_subheader "Association Network";
               st_caption "Visualizing the top 20 strongest rules (by Lift)";
               graph_result s view;
               st_subheader "Raw Association Rules"; st_dataframe view],
           inr tt).
Proof.
  intros E view Hv. unfold dashboard. rewrite E.
  cbv beta iota zeta delta [lib ret bind call filtered_df].
  fold view.
  rewrite product_recommender_run, network_graph_run.
  destruct view as [|r view']; [congruence|]. reflexivity.
Qed.

(** C6, as the code has it.  No [DataFormatError] is raised for a file that
    is there but malformed, and the script has no handler of its own for
    it.  On a run that reads the file (no cached result): an exception of
    the unpickler that is not a [FileNotFoundError] leaves [load_rules] as it
    is, nothing is cached, and the run ends on it right after the page
    set-up, before any title, message or later stage; a [FileNotFoundError]
    (or an instance of a subclass) raised by the unpickler is handled as
    the missing file is; a file that unpickles to an object without the
    columns the filter reads is returned as it is, and the run ends on the
    exception of lines 53-57, after the sliders and before the title. *)
Theorem load_rules_malformed_propagates `{SV : SortValues}
    (s : Session) (e : exn) :
  st_cache s = None ->
  (rules_pkl s = Malformed e -> isinstance e "FileNotFoundError" = false ->
     load_rules (st_cache s) (rules_pkl s) = Raise e
     /\ cache_after (st_cache s) (rules_pkl s) = None
     /\ page (dashboard s) = [st_set_page_config; st_markdown "<style>"]
     /\ ending (dashboard s) = inl (Uncaught e))
  /\ (rules_pkl s = Malformed e -> isinstance e "FileNotFoundError" = true ->
     load_rules (st_cache s) (rules_pkl s) = Return PyNone
     /\ page (dashboard s) = opening_calls false ++ [st_error missing_message]
     /\ ending (dashboard s) = inl Stopped)
  /\ (rules_pkl s = Stored (Other e) ->
     load_rules (st_cache s) (rules_pkl s) = Return (Other e)
     /\ page (dashboard s)
        = [st_set_page_config; st_markdown "<style>";
           st_sidebar_title "Settings";
           st_sidebar_write "Refine your analysis rules.";
           st_sidebar_slider "Min Support"; st_sidebar_slider "Min Confidence";
           st_sidebar_slider "Min Lift"]
     /\ ending (dashboard s) = inl (Uncaught e)).
Proof.
  intros Hcold. split; [|split].
  - intros Hfile Hclass.
    assert (E : load_rules (st_cache s) (rules_pkl s) = Raise e).
    { rewrite Hcold, Hfile. unfold load_rules, load_rules_body, read_pickle.
      now rewrite Hclass. }
    split; [exact E|]. split.
    + rewrite Hcold, Hfile. unfold cache_after, load_rules_body, read_pickle.
      now rewrite Hclass.
    + now rewrite (app_run_raised s e E).
  - intros Hfile Hclass.
    assert (E : load_rules (st_cache s) (rules_pkl s) = Return PyNone).
    { rewrite Hcold, Hfile. unfold load_rules, load_rules_body, read_pickle.
      now rewrite Hclass. }
    split; [exact E|]. now rewrite (app_run_missing s E).
  - intros Hfile.
    assert (E : load_rules (st_cache s) (rules_pkl s) = Return (Other e))
      by now rewrite Hcold, Hfile.
    split; [exact E|]. now rewrite (app_run_other s e E).
Qed.

Lemma load_rules_malformed_propagates_witness :
  let s := session_with (Malformed unpickling_error) "A" (Return tt) in
  st_cache s = None
  /\ rules_pkl s = Malformed unpickling_error
  /\ isinstance unpickling_error "FileNotFoundError" = false
  /\ load_rules (st_cache s) (rules_pkl s) = Raise unpickling_error
  /\ cache_after (st_cache s) (rules_pkl s) = None
  /\ page (@dashboard stable_kind s) = [st_set_page_config; st_markdown "<style>"]
  /\ ending (@dashboard stable_kind s) = inl (Uncaught unpickling_error).
Proof.
  intros s. split; [reflexivity|]. split; [reflexivity|].
  split; [vm_compute; reflexivity|].
  destruct (load_rules_malformed_propagates (SV := stable_kind) s
              unpickling_error eq_refl) as [H _].
  apply H; [reflexivity | vm_compute; reflexivity].
Defined.

(** C6 as stated does not hold: on a file that does not unpickle the load
    fails with the unpickler's own exception, not with a [DataFormatError];
    the script shows no message for it and does not stop by [st.stop()]: it
    ends on the exception. *)
Lemma malformed_artifact_not_reported :
  let s := session_with (Malformed unpickling_error) "A" (Return tt) in
  load_rules (st_cache s) (rules_pkl s) = Raise unpickling_error
  /\ isinstance unpickling_error "DataFormatError" = false
  /\ (forall body, ~ In (st_error body) (page (@dashboard stable_kind s)))
  /\ ending (@dashboard stable_kind s) = inl (Uncaught unpickling_error)
  /\ ending (@dashboard stable_kind s) <> inl Stopped
  /\ ~ (forall (s : Session) (e : exn), rules_pkl s = Malformed e ->
          (exists e', load_rules (st_cache s) (rules_pkl s) = Raise e'
                      /\ isinstance e' "DataFormatError" = true)
          /\ (exists body, In (st_error body) (page (@dashboard stable_kind s)))
          /\ ending (@dashboard stable_kind s) = inl Stopped).
Proof.
  intros s.
  split; [reflexivity|]. split; [vm_compute; reflexivity|].
  split; [intros body [H|[H|[]]]; discriminate H|].
  split; [reflexivity|]. split; [discriminate|].
  intros H. destruct (H s unpickling_error eq_refl) as (_ & _ & Hend).
  discriminate Hend.
Qed.

Lemma opening_calls_not_downstream (loaded : bool) :
  Forall (fun ev => downstream ev = false) (opening_calls loaded).
Proof. destruct loaded; repeat constructor. Qed.

(** C7.  Whenever the filtered view of a loaded store is empty, the run
    shows the "no rules found" notice, a warning and not an error, and stops
    there by [st.stop()]: the notice is its last call, and no call of a later
    stage (metric cards, recommender, graph, table) is made. *)
Theorem empty_view_stops `{SV : SortValues}
    (s : Session) (store : DataFrame) :
  load_rules (st_cache s) (rules_pkl s) = Return (Table store) ->
  threshold_filter store (min_sup_slider s) (min_conf_slider s)
    (min_lift_slider s) = [] ->
  ending (dashboard s) = inl Stopped
  /\ page (dashboard s) = opening_calls true ++ [st_warning no_rules_message]
  /\ last (page (dashboard s)) = Some (st_warning no_rules_message)
  /\ Forall (fun ev => downstream ev = false) (page (dashboard s))
  /\ (forall body, ~ In (st_error body) (page (dashboard s))).
Proof.
  intros E Hv. rewrite (app_run_no_rules s store E Hv).
  cbn [page ending fst snd].
  split; [reflexivity|]. split; [reflexivity|]. split; [reflexivity|]. split.
  - apply Forall_app. split; [apply opening_calls_not_downstream|].
    repeat constructor.
  - intros body H. vm_compute in H.
    repeat (destruct H as [H|H]; [discriminate H|]). exact H.
Qed.

Lemma empty_view_stops_witness :
  let s := session_with (Stored (Table [rule_DE])) "A" (Return tt) in
  load_rules (st_cache s) (rules_pkl s) = Return (Table [rule_DE])
  /\ threshold_filter [rule_DE] (min_sup_slider s) (min_conf_slider s)
       (min_lift_slider s) = []
  /\ ending (@dashboard stable_kind s) = inl Stopped
  /\ page (@dashboard stable_kind s)
     = opening_calls true ++ [st_warning no_rules_message]
  /\ last (page (@dashboard stable_kind s)) = Some (st_warning no_rules_message)
  /\ Forall (fun ev => downstream ev = false) (page (@dashboard stable_kind s))
  /\ (forall body, ~ In (st_error body) (page (@dashboard stable_kind s))).
Proof.
  intros s. split; [reflexivity|]. split; [reflexivity|].
  apply (empty_view_stops (SV := stable_kind) s [rule_DE]); reflexivity.
Defined.

(** Whatever the body of a [try] did before it raised, the handler runs
    next and the exception goes no further. *)
Lemma try_except_catches {A} (body : Script A) (handler : exn -> Script A)
    (e : exn) :
  ending body = inl (Uncaught e) ->
  try_except body handler = (page body ++ page (handler e), ending (handler e)).
Proof.
  destruct body as [t r]. cbn [ending snd]. intros ->.
  cbn [try_except page fst]. now destruct (handler e).
Qed.

(** C8.  An exception raised in the graph section is caught there: the
    section shows the text of the error in the place of the figure and
    nothing else changes; the metric cards and the recommender are rendered
    before it, the raw table after it, and the run ends normally. *)
Theorem graph_error_is_contained `{SV : SortValues}
    (s : Session) (store : DataFrame) (e : exn) :
  load_rules (st_cache s) (rules_pkl s) = Return (Table store) ->
  let view := threshold_filter store (min_sup_slider s) (min_conf_slider s)
                (min_lift_slider s) in
  view <> [] ->
  ending (graph_body s view) = inl (Uncaught e) ->
  network_graph s view
  = ([st_subheader "Association Network";
      st_caption "Visualizing the top 20 strongest rules (by Lift)";
      st_error ("Error generating graph: " +:+ exn_msg e)], inr tt)
  /\ ending (dashboard s) = inr tt
  /\ page (dashboard s)
     = opening_calls true ++ metric_calls view
       ++ st_divider :: recommender_calls s view
       ++ [st_divider; st_tabs ["Network Graph"; "Detailed Data"];
           st_subheader "Association Network";
           st_caption "Visualizing the top 20 strongest rules (by Lift)";
           st_error ("Error generating graph: " +:+ exn_msg e);
           st_subheader "Raw Association Rules"; st_dataframe view].
Proof.
  intros E view Hv He.
  rewrite (app_run_rules s store E Hv), network_graph_run. fold view.
  unfold graph_result. rewrite He. repeat split; reflexivity.
Qed.

Lemma graph_error_is_contained_witness :
  let s := session_with (Stored (Table scenario_store)) "A" (Raise draw_error) in
  let view := [rule_AB; rule_AC] in
  load_rules (st_cache s) (rules_pkl s) = Return (Table scenario_store)
  /\ threshold_filter scenario_store (min_sup_slider s) (min_conf_slider s)
       (min_lift_slider s) = view
  /\ ending (@graph_body stable_kind s view) = inl (Uncaught draw_error)
  /\ @network_graph stable_kind s view
     = ([st_subheader "Association Network";
         st_caption "Visualizing the top 20 strongest rules (by Lift)";
         st_error ("Error generating graph: " +:+ exn_msg draw_error)], inr tt)
  /\ ending (@dashboard stable_kind s) = inr tt
  /\ page (@dashboard stable_kind s)
     = opening_calls true ++ metric_calls view
       ++ st_divider :: @recommender_calls stable_kind s view
       ++ [st_divider; st_tabs ["Network Graph"; "Detailed Data"];
           st_subheader "Association Network";
           st_caption "Visualizing the top 20 strongest rules (by Lift)";
           st_error ("Error generating graph: " +:+ exn_msg draw_error);
           st_subheader "Raw Association Rules"; st_dataframe view].
Proof.
  intros s view. split; [reflexivity|]. split; [reflexivity|].
  split; [reflexivity|].
  apply (graph_error_is_contained (SV := stable_kind) s scenario_store
           draw_error); [reflexivity | discriminate | reflexivity].
Defined.

Lemma mean_defined (s : list float) : s <> [] -> exists x, mean s = Some x.
Proof. destruct s; [congruence|]. intros _. simpl. eauto. Qed.

Lemma max_defined (s : list float) : s <> [] -> exists x, max s = Some x.
Proof. destruct s; [congruence|]. intros _. simpl. eauto. Qed.

Lemma recommender_calls_no_metric `{SV : SortValues} (s : Session)
    (view : DataFrame) (label : string) (value : metric_value) :
  ~ In (st_metric label value) (recommender_calls s view).
Proof.
  unfold recommender_calls. cbv zeta. rewrite in_app_iff.
  intros [[H|[H|[]]]|H]; try discriminate H.
  destruct (String.eqb _ no_item); [destruct H|].
  destruct (empty _).
  - destruct H as [H|[]]; discriminate H.
  - destruct H as [H|H]; [discriminate H|].
    apply in_map_iff in H as (row & H & _). discriminate H.
Qed.

(** C9.  A metric card is only ever rendered in a run that loaded a store
    and whose filtered view has at least one row: it is then one of the four
    cards of that view, all three aggregates (mean confidence, mean lift,
    largest lift) are defined, and no card carries an undefined value. *)
Theorem metrics_only_for_nonempty_view `{SV : SortValues}
    (s : Session) (label : string) (value : metric_value) :
  In (st_metric label value) (page (dashboard s)) ->
  exists store,
    load_rules (st_cache s) (rules_pkl s) = Return (Table store)
    /\ let view := threshold_filter store (min_sup_slider s) (min_conf_slider s)
                     (min_lift_slider s) in
       view <> []
       /\ 0 < length view
       /\ In (st_metric label value) (metric_calls view)
       /\ (exists c l m,
             mean (map confidence view) = Some c
             /\ mean (map lift view) = Some l
             /\ max (map lift view) = Some m)
       /\ value <> Aggregate None.
Proof.
  intros Hin.
  destruct (load_rules (st_cache s) (rules_pkl s)) as [[|store|e]|e] eqn:E.
  - exfalso. rewrite (app_run_missing s E) in Hin. vm_compute in Hin.
    repeat (destruct Hin as [Hin|Hin]; [discriminate Hin|]). exact Hin.
  - exists store. split; [reflexivity|]. cbv zeta.
    set (view := threshold_filter store (min_sup_slider s) (min_conf_slider s)
                   (min_lift_slider s)) in *.
    destruct view as [|r view'] eqn:Ev.
    + exfalso. rewrite (app_run_no_rules s store E Ev) in Hin.
      vm_compute in Hin.
      repeat (destruct Hin as [Hin|Hin]; [discriminate Hin|]). exact Hin.
    + rewrite <- Ev in *.
      assert (Hv : view <> []) by (rewrite Ev; discriminate).
      assert (Hc : map confidence view <> []) by (rewrite Ev; discriminate).
      assert (Hl : map lift view <> []) by (rewrite Ev; discriminate).
      destruct (mean_defined _ Hc) as [c Hmc].
      destruct (mean_defined _ Hl) as [l Hml].
      destruct (max_defined _ Hl) as [m Hmx].
      assert (Hcards : In (st_metric label value) (metric_calls view)).
      { rewrite (app_run_rules s store E Hv) in Hin. fold view in Hin.
        cbn [page fst] in Hin. rewrite !in_app_iff in Hin.
        destruct Hin as [Hin|[Hin|Hin]]; [exfalso| exact Hin |exfalso].
        - vm_compute in Hin.
          repeat (destruct Hin as [Hin|Hin]; [discriminate Hin|]). exact Hin.
        - destruct Hin as [Hin|Hin]; [discriminate Hin|].
          apply in_app_iff in Hin as [Hin|Hin].
          + exact (recommender_calls_no_metric s view label value Hin).
          + unfold graph_result in Hin.
            destruct (ending (graph_body s view)) as [[|e']|[]];
              repeat (destruct Hin as [Hin|Hin]; [discriminate Hin|]);
              exact Hin. }
      split; [exact Hv|]. split; [rewrite Ev; simpl; lia|].
      split; [exact Hcards|]. split; [now exists c, l, m|].
      unfold metric_calls in Hcards. rewrite Hmc, Hml, Hmx in Hcards.
      repeat (destruct Hcards as [Hcards|Hcards];
              [injection Hcards as _ <-; discriminate|]).
      destruct Hcards.
  - exfalso. rewrite (app_run_other s e E) in Hin.
    repeat (destruct Hin as [Hin|Hin]; [discriminate Hin|]). exact Hin.
  - exfalso. rewrite (app_run_raised s e E) in Hin.
    repeat (destruct Hin as [Hin|Hin]; [discriminate Hin|]). exact Hin.
Qed.

Lemma metrics_only_for_nonempty_view_witness :
  let s := session_with (Stored (Table scenario_store)) "A" (Return tt) in
  In (st_metric "Total Rules Found" (Count 2)) (page (@dashboard stable_kind s))
  /\ exists store,
       load_rules (st_cache s) (rules_pkl s) = Return (Table store)
       /\ let view := threshold_filter store (min_sup_slider s)
                        (min_conf_slider s) (min_lift_slider s) in
          view <> []
          /\ 0 < length view
          /\ In (st_metric "Total Rules Found" (Count 2)) (metric_calls view)
          /\ (exists c l m,
                mean (map confidence view) = Some c
                /\ mean (map lift view) = Some l
                /\ max (map lift view) = Some m)
          /\ Count 2 <> Aggregate None.
Proof.
  intros s.
  assert (Hin : In (st_metric "Total Rules Found" (Count 2))
                  (page (@dashboard stable_kind s)))
    by (vm_compute; do 9 right; left; reflexivity).
  split; [exact Hin|].
  exact (metrics_only_for_nonempty_view (SV := stable_kind) s
           "Total Rules Found" (Count 2) Hin).
Defined.

(* ================================================================== *)
(** * Further properties *)
(* ================================================================== *)

(** With no file to read on a run that reads it (no cached result), and
    also when the cached result is [None], the run shows the error about the
    missing file and stops before any later stage. *)
Theorem missing_artifact_stops `{SV : SortValues} (s : Session) :
  (st_cache s = None /\ rules_pkl s = Missing) \/ st_cache s = Some PyNone ->
  load_rules (st_cache s) (rules_pkl s) = Return PyNone
  /\ page (dashboard s) = opening_calls false ++ [st_error missing_message]
  /\ ending (dashboard s) = inl Stopped
  /\ Forall (fun ev => downstream ev = false) (page (dashboard s)).
Proof.
  intros Hstate.
  assert (E : load_rules (st_cache s) (rules_pkl s) = Return PyNone).
  { destruct Hstate as [[-> ->]| ->]; reflexivity. }
  split; [exact E|].
  rewrite (app_run_missing s E). repeat split.
  apply Forall_app. split; [apply opening_calls_not_downstream|].
  repeat constructor.
Qed.

Lemma missing_artifact_stops_witness :
  let s := session_with Missing "A" (Return tt) in
  ((st_cache s = None /\ rules_pkl s = Missing) \/ st_cache s = Some PyNone)
  /\ load_rules (st_cache s) (rules_pkl s) = Return PyNone
  /\ page (@dashboard stable_kind s)
     = opening_calls false ++ [st_error missing_message]
  /\ ending (@dashboard stable_kind s) = inl Stopped
  /\ Forall (fun ev => downstream ev = false) (page (@dashboard stable_kind s)).
Proof.
  intros s.
  assert (H : (st_cache s = None /\ rules_pkl s = Missing)
              \/ st_cache s = Some PyNone) by (left; split; reflexivity).
  split; [exact H|].
  exact (missing_artifact_stops (SV := stable_kind) s H).
Defined.

(** An item that is the antecedent of no rule of the filtered view has no
    recommendation. *)
Theorem recommendations_no_match `{SV : SortValues}
    (Hsort : sorts_descending SV) (view : DataFrame) (item : string) :
  (forall r, In r view -> antecedents r <> item) ->
  specific_rules view item = [] /\ recommendations view item = [].
Proof.
  intros Hnone.
  assert (E : specific_rules view item = []).
  { destruct (specific_rules view item) as [|r rest] eqn:E; [reflexivity|].
    assert (Hr : In r (specific_rules view item)) by (rewrite E; now left).
    apply (specific_rules_In Hsort) in Hr as [Hr Hitem].
    now destruct (Hnone r Hr). }
  split; [exact E|]. unfold recommendations. now rewrite E.
Qed.

Lemma recommendations_no_match_witness :
  sorts_descending stable_kind
  /\ (forall r, In r [rule_AB; rule_AC] -> antecedents r <> "D")
  /\ @specific_rules stable_kind [rule_AB; rule_AC] "D" = []
  /\ @recommendations stable_kind [rule_AB; rule_AC] "D" = [].
Proof.
  split; [exact stable_kind_sorts|].
  assert (Hnone : forall r, In r [rule_AB; rule_AC] -> antecedents r <> "D").
  { intros r [<-|[<-|[]]]; discriminate. }
  split; [exact Hnone|].
  exact (recommendations_no_match (SV := stable_kind) stable_kind_sorts
           [rule_AB; rule_AC] "D" Hnone).
Defined.

(** ** The threshold filter under a change of the sliders *)

Lemma mask_weaken s c l s' c' l' r :
  ge s' s = true -> ge c' c = true -> ge l' l = true ->
  mask s' c' l' r = true -> mask s c l r = true.
Proof.
  intros Hs Hc Hl. rewrite !mask_meets. unfold meets.
  intros (Hrs & Hrc & Hrl). repeat split; eapply ge_trans; eassumption.
Qed.

(** Raising sliders only removes rules: with every threshold at least as
    high as before, the new view is the old view filtered again, a
    subsequence of it, and has no more rows. *)
Theorem threshold_filter_monotone
    (store : DataFrame) (s c l s' c' l' : float) :
  ge s' s = true -> ge c' c = true -> ge l' l = true ->
  threshold_filter (threshold_filter store s c l) s' c' l'
  = threshold_filter store s' c' l'
  /\ sublist (threshold_filter store s' c' l') (threshold_filter store s c l)
  /\ length (threshold_filter store s' c' l')
     <= length (threshold_filter store s c l).
Proof.
  intros Hs Hc Hl.
  assert (E : threshold_filter (threshold_filter store s c l) s' c' l'
              = threshold_filter store s' c' l').
  { induction store as [|r store IH]; [reflexivity|].
    rewrite !threshold_filter_cons.
    destruct (mask s' c' l' r) eqn:M'.
    - rewrite (mask_weaken s c l s' c' l' r Hs Hc Hl M').
      rewrite threshold_filter_cons, M'. now rewrite IH.
    - destruct (mask s c l r); [|exact IH].
      rewrite threshold_filter_cons, M'. exact IH. }
  split; [exact E|].
  assert (Hsub : sublist (threshold_filter store s' c' l')
                   (threshold_filter store s c l))
    by (rewrite <- E; apply threshold_filter_sublist).
  split; [exact Hsub|]. now apply sublist_length.
Qed.

Lemma threshold_filter_monotone_witness :
  ge 0.5 0.03 = true /\ ge 0.3 0.3 = true /\ ge 1.5 1.0 = true
  /\ threshold_filter (threshold_filter scenario_store 0.03 0.3 1.0) 0.5 0.3 1.5
     = threshold_filter scenario_store 0.5 0.3 1.5
  /\ sublist (threshold_filter scenario_store 0.5 0.3 1.5)
       (threshold_filter scenario_store 0.03 0.3 1.0)
  /\ length (threshold_filter scenario_store 0.5 0.3 1.5)
     <= length (threshold_filter scenario_store 0.03 0.3 1.0).
Proof.
  repeat (split; [reflexivity|]).
  apply (threshold_filter_monotone scenario_store 0.03 0.3 1.0 0.5 0.3 1.5);
    reflexivity.
Defined.

(** Missing values never pass: a row with NaN in its support, confidence or
    lift is in no filtered view, and a slider at NaN leaves the view
    empty. *)
Theorem threshold_filter_drops_nan
    (store : DataFrame) (s c l : float) :
  Forall (fun r => is_nan (support r) = false
                   /\ is_nan (confidence r) = false
                   /\ is_nan (lift r) = false)
    (threshold_filter store s c l)
  /\ (forall r, In r store ->
        is_nan (support r) = true \/ is_nan (confidence r) = true
        \/ is_nan (lift r) = true ->
        ~ In r (threshold_filter store s c l))
  /\ (is_nan s = true \/ is_nan c = true \/ is_nan l = true ->
      threshold_filter store s c l = []).
Proof.
  split; [|split].
  - apply Forall_forall. intros r Hr. apply list_elem_of_In in Hr.
    now apply threshold_filter_not_nan in Hr.
  - intros r _ Hnan Hr. apply threshold_filter_not_nan in Hr.
    destruct Hr as (Hs & Hc & Hl). rewrite Hs, Hc, Hl in Hnan.
    destruct Hnan as [H|[H|H]]; discriminate H.
  - intros Hnan.
    destruct (threshold_filter store s c l) as [|r rest] eqn:E; [reflexivity|].
    exfalso.
    assert (Hr : In r (threshold_filter store s c l)) by (rewrite E; now left).
    apply threshold_filter_In in Hr as [_ (Hs & Hc & Hl)].
    apply ge_not_nan in Hs as [_ Hs], Hc as [_ Hc], Hl as [_ Hl].
    rewrite Hs, Hc, Hl in Hnan.
    destruct Hnan as [H|[H|H]]; discriminate H.
Qed.

(** ** The options of the select box *)

Lemma insert_item_perm (x : string) (l : list string) :
  insert_item x l ≡ₚ x :: l.
Proof.
  induction l as [|y t IH]; simpl; [reflexivity|].
  destruct (String.leb x y); [reflexivity|].
  rewrite IH. apply perm_swap.
Qed.

Lemma insert_item_sorted (x : string) (l : list string) :
  Sorted (fun a b => String.leb a b = true) l ->
  Sorted (fun a b => String.leb a b = true) (insert_item x l).
Proof.
  induction l as [|y t IH]; simpl; intros Hs.
  - repeat constructor.
  - destruct (String.leb x y) eqn:E.
    + constructor; [assumption|]. now constructor.
    + apply Sorted_inv in Hs as [Ht Hy].
      constructor; [now apply IH|].
      assert (Hyx : String.leb y x = true)
        by (destruct (String.leb_total x y); congruence).
      destruct t as [|z t]; simpl.
      * now constructor.
      * destruct (String.leb x z); constructor; [assumption|].
        now apply HdRel_inv in Hy.
Qed.

Lemma all_items_perm (view : DataFrame) :
  all_items view ≡ₚ remove_dups (map antecedents view).
Proof.
  unfold all_items.
  induction (remove_dups (map antecedents view)) as [|x l IH];
    simpl; [reflexivity|].
  rewrite insert_item_perm. now rewrite IH.
Qed.

Lemma all_items_In (view : DataFrame) (item : string) :
  In item (all_items view) <-> exists r, In r view /\ antecedents r = item.
Proof.
  rewrite <- list_elem_of_In, all_items_perm, elem_of_remove_dups.
  rewrite list_elem_of_In, in_map_iff.
  split; intros (r & H1 & H2); exists r; tauto.
Qed.

Lemma remove_dups_length (l : list string) :
  length (remove_dups l) <= length l.
Proof.
  induction l as [|x l IH]; simpl; [lia|].
  destruct (decide_rel elem_of x l); simpl; lia.
Qed.

(** The options offered after the placeholder are the antecedents of the
    rows of the filtered view, each once, in ascending order; an item all
    whose rules were filtered out is not offered. *)
Theorem all_items_sorted_unique (view : DataFrame) :
  Sorted (fun a b => String.leb a b = true) (all_items view)
  /\ NoDup (all_items view)
  /\ (forall item, In item (all_items view) <->
        exists r, In r view /\ antecedents r = item)
  /\ length (all_items view) <= length view.
Proof.
  split; [|split; [|split]].
  - unfold all_items.
    induction (remove_dups (map antecedents view)) as [|x l IH];
      simpl; [constructor|]. now apply insert_item_sorted.
  - rewrite all_items_perm. apply NoDup_remove_dups.
  - apply all_items_In.
  - rewrite (Permutation_length (all_items_perm view)).
    etransitivity; [apply remove_dups_length|].
    now rewrite length_map.
Qed.

(** ** What the recommender shows *)

(** The recommender shows nothing for the placeholder, also when a rule has
    the placeholder's text as its antecedent; for an item that is the
    antecedent of a row of the view, the heading and between one and five
    recommendations; for any other text, the "no associations" note.  An
    item chosen among the offered options never gets that note. *)
Theorem recommender_outcomes `{SV : SortValues}
    (Hsort : sorts_descending SV) (s : Session) (view : DataFrame) :
  let options := no_item :: all_items view in
  let selected_item := selectbox_choice s options in
  let header :=
    [st_subheader "Product Recommender";
     st_selectbox "Select a product to see what customers buy with it:" options] in
  (selected_item = no_item -> page (product_recommender s view) = header)
  /\ (selected_item <> no_item ->
      (exists r, In r view /\ antecedents r = selected_item) ->
      page (product_recommender s view)
      = header
        ++ st_success ("Customers who buy **" +:+ selected_item +:+ "** also buy:")
        :: map (fun row => st_write (consequents row) (confidence row) (lift row))
             (recommendations view selected_item)
      /\ 1 <= length (recommendations view selected_item) <= 5)
  /\ (selected_item <> no_item ->
      (forall r, In r view -> antecedents r <> selected_item) ->
      page (product_recommender s view)
      = header
        ++ [st_info ("No strong associations found for " +:+ selected_item
                       +:+ " with current settings.")])
  /\ (In selected_item options ->
      forall body, ~ In (st_info body) (page (product_recommender s view))).
Proof.
  intros options selected_item header.
  rewrite product_recommender_run. cbn [page fst].
  unfold recommender_calls. cbv zeta.
  fold options. fold selected_item. fold header.
  assert (Hmatch : (exists r, In r view /\ antecedents r = selected_item) ->
            empty (specific_rules view selected_item) = false
            /\ 1 <= length (recommendations view selected_item) <= 5).
  { intros (r & Hr & Hitem).
    assert (Hin : In r (specific_rules view selected_item))
      by now apply (specific_rules_In Hsort).
    unfold recommendations, df_head. rewrite length_take.
    destruct (specific_rules view selected_item) as [|r0 rest];
      [destruct Hin|]. cbn [empty length]. split; [reflexivity|lia]. }
  assert (Hnone : (forall r, In r view -> antecedents r <> selected_item) ->
            empty (specific_rules view selected_item) = true).
  { intros Hno.
    destruct (specific_rules view selected_item) as [|r0 rest] eqn:E;
      [reflexivity|].
    assert (Hin : In r0 (specific_rules view selected_item))
      by (rewrite E; now left).
    apply (specific_rules_In Hsort) in Hin as [Hin Hitem].
    now destruct (Hno r0 Hin). }
  split; [|split; [|split]].
  - intros ->. rewrite String.eqb_refl. now rewrite app_nil_r.
  - intros Hne Hex. apply String.eqb_neq in Hne. rewrite Hne.
    destruct (Hmatch Hex) as [-> Hlen]. split; [reflexivity|exact Hlen].
  - intros Hne Hno. apply String.eqb_neq in Hne. rewrite Hne.
    now rewrite (Hnone Hno).
  - intros Hopt body Hin.
    apply in_app_iff in Hin as [[H|[H|[]]]|Hin]; try discriminate H.
    destruct (String.eqb selected_item no_item) eqn:Hsel; [destruct Hin|].
    apply String.eqb_neq in Hsel.
    destruct Hopt as [Hopt|Hopt]; [congruence|].
    apply all_items_In in Hopt.
    destruct (Hmatch Hopt) as [E _]. rewrite E in Hin.
    destruct Hin as [H|Hin]; [discriminate H|].
    apply in_map_iff in Hin as (row & H & _). discriminate H.
Qed.

Lemma recommender_outcomes_witness :
  sorts_descending stable_kind
  /\ let s := session_with (Stored (Table scenario_store)) "A" (Return tt) in
     let view := [rule_AB; rule_AC] in
     let options := no_item :: all_items view in
     let selected_item := selectbox_choice s options in
     let header :=
       [st_subheader "Product Recommender";
        st_selectbox "Select a product to see what customers buy with it:"
          options] in
     (selected_item = no_item ->
      page (@product_recommender stable_kind s view) = header)
     /\ (selected_item <> no_item ->
         (exists r, In r view /\ antecedents r = selected_item) ->
         page (@product_recommender stable_kind s view)
         = header
           ++ st_success ("Customers who buy **" +:+ selected_item
                            +:+ "** also buy:")
           :: map (fun row => st_write (consequents row) (confidence row) (lift row))
                (@recommendations stable_kind view selected_item)
         /\ 1 <= length (@recommendations stable_kind view selected_item) <= 5)
     /\ (selected_item <> no_item ->
         (forall r, In r view -> antecedents r <> selected_item) ->
         page (@product_recommender stable_kind s view)
         = header
           ++ [st_info ("No strong associations found for " +:+ selected_item
                          +:+ " with current settings.")])
     /\ (In selected_item options ->
         forall body,
           ~ In (st_info body) (page (@product_recommender stable_kind s view))).
Proof.
  split; [exact stable_kind_sorts|].
  exact (recommender_outcomes (SV := stable_kind) stable_kind_sorts
           (session_with (Stored (Table scenario_store)) "A" (Return tt))
           [rule_AB; rule_AC]).
Defined.

(** ** The nodes and edges of the graph *)

Lemma size_union_le (X Y : gset string) : size (X ∪ Y) <= size X + size Y.
Proof.
  rewrite size_union_alt.
  assert (size (Y ∖ X) <= size Y) by (apply subseteq_size; set_solver).
  lia.
Qed.

Lemma fold_add_row_nodes (rows : DataFrame) (G0 : DiGraph) (x : string) :
  x ∈ nodes (fold_left add_row rows G0) <->
  x ∈ nodes G0
  \/ exists r, In r rows /\ (antecedents r = x \/ consequents r = x).
Proof.
  revert G0. induction rows as [|r rows IH]; intros G0; cbn [fold_left].
  - split; [now left|]. intros [H|(r & [] & _)]. exact H.
  - rewrite IH. cbn [add_row add_edge nodes].
    rewrite elem_of_union, elem_of_union, !elem_of_singleton.
    split.
    + intros [[[->| ->]|H]|(r' & Hr' & H)].
      * right. exists r. split; [now left|now left].
      * right. exists r. split; [now left|now right].
      * now left.
      * right. exists r'. split; [now right|exact H].
    + intros [H|(r' & [<-|Hr'] & H)].
      * left. now right.
      * left. left. destruct H as [<-|<-]; [now left|now right].
      * right. exists r'. split; assumption.
Qed.

Lemma fold_add_row_nodes_size (rows : DataFrame) (G0 : DiGraph) :
  size (nodes (fold_left add_row rows G0)) <= size (nodes G0) + 2 * length rows.
Proof.
  revert G0. induction rows as [|r rows IH]; intros G0; cbn [fold_left length].
  - lia.
  - etransitivity; [apply IH|]. cbn [add_row add_edge nodes].
    pose proof (size_union_le {[antecedents r; consequents r]} (nodes G0)) as H1.
    pose proof (size_union_le {[antecedents r]} {[consequents r]}) as H2.
    rewrite !size_singleton in H2. lia.
Qed.

Lemma fold_add_row_dom (rows : DataFrame) (G0 : DiGraph) :
  dom (edges (fold_left add_row rows G0))
  = dom (edges G0) ∪ list_to_set (map endpoints rows).
Proof.
  revert G0. induction rows as [|r rows IH]; intros G0; cbn [fold_left map].
  - rewrite list_to_set_nil. set_solver.
  - rewrite IH. cbn [add_row add_edge edges].
    rewrite dom_insert_L, list_to_set_cons. fold (endpoints r). set_solver.
Qed.

(** The graph built from a list of rows: its nodes are the items that occur
    as antecedent or consequent of a row; there is an edge from [u] to [v]
    exactly when a row has antecedent [u] and consequent [v], and both ends
    of an edge are nodes; there are as many edges as different pairs of
    antecedent and consequent among the rows, and at most two nodes per
    row. *)
Theorem build_graph_nodes_and_edges (rows : DataFrame) :
  let G := build_graph rows in
  (forall x, x ∈ nodes G <->
     exists r, In r rows /\ (antecedents r = x \/ consequents r = x))
  /\ (forall u v, is_Some (edges G !! (u, v)) <->
        exists r, In r rows /\ antecedents r = u /\ consequents r = v)
  /\ (forall u v, is_Some (edges G !! (u, v)) -> u ∈ nodes G /\ v ∈ nodes G)
  /\ size (edges G) = length (remove_dups (map endpoints rows))
  /\ size (nodes G) <= 2 * length rows.
Proof.
  intros G.
  assert (Hn : forall x, x ∈ nodes G <->
             exists r, In r rows /\ (antecedents r = x \/ consequents r = x)).
  { intros x. unfold G, build_graph. rewrite fold_add_row_nodes.
    cbn [empty_graph nodes]. rewrite elem_of_empty. tauto. }
  assert (Hd : dom (edges G) = list_to_set (map endpoints rows)).
  { unfold G, build_graph. rewrite fold_add_row_dom.
    cbn [empty_graph edges]. rewrite dom_empty_L. set_solver. }
  assert (He : forall u v, is_Some (edges G !! (u, v)) <->
             exists r, In r rows /\ antecedents r = u /\ consequents r = v).
  { intros u v. rewrite <- elem_of_dom, Hd, elem_of_list_to_set.
    rewrite list_elem_of_In, in_map_iff. unfold endpoints.
    split.
    - intros (r & [= <- <-] & Hr). now exists r.
    - intros (r & Hr & <- & <-). now exists r. }
  split; [exact Hn|]. split; [exact He|]. split; [|split].
  - intros u v Huv. apply He in Huv as (r & Hr & <- & <-).
    split; apply Hn; exists r; auto.
  - rewrite <- size_dom, Hd.
    rewrite <- (size_list_to_set (C := gset (string * string))
                  (remove_dups (map endpoints rows)))
      by apply NoDup_remove_dups.
    f_equal. apply set_eq. intros k.
    now rewrite !elem_of_list_to_set, elem_of_remove_dups.
  - unfold G, build_graph.
    etransitivity; [apply fold_add_row_nodes_size|].
    cbn [empty_graph nodes]. rewrite size_empty. lia.
Qed.

(** The graph the page draws has at most 20 edges and 40 nodes, whatever
    the size of the filtered view and whatever the sort does. *)
Theorem drawn_graph_is_small `{SV : SortValues} (view : DataFrame) :
  length (graph_data view) <= 20
  /\ size (edges (build_graph (graph_data view))) <= 20
  /\ size (nodes (build_graph (graph_data view))) <= 40.
Proof.
  assert (H : length (graph_data view) <= 20).
  { unfold graph_data, df_head. rewrite length_take. lia. }
  split; [exact H|]. split.
  - etransitivity; [apply build_graph_size|exact H].
  - unfold build_graph.
    etransitivity; [apply fold_add_row_nodes_size|].
    cbn [empty_graph nodes]. rewrite size_empty. lia.
Qed.

(** ** The largest lift *)

Lemma SFltb_false_key a b :
  a <> S754_nan -> b <> S754_nan ->
  SFltb a b = false -> lex_le (sf_key b) (sf_key a).
Proof.
  intros Ha Hb. unfold SFltb.
  destruct a as [sa|sa| |sa ma ea], b as [sb|sb| |sb mb eb]; try congruence;
    simpl; try (destruct sa); try (destruct sb); simpl;
    try discriminate; try (intros _; lia).
  - change (Pos.compare_cont Eq ma mb) with (Pos.compare ma mb).
    destruct (Z.compare_spec ea eb); simpl;
      try destruct (Pos.compare_spec ma mb); simpl;
      try discriminate; intros _; lia.
  - change (Pos.compare_cont Eq ma mb) with (Pos.compare ma mb).
    destruct (Z.compare_spec ea eb); simpl;
      try destruct (Pos.compare_spec ma mb); simpl;
      try discriminate; intros _; lia.
Qed.

Lemma SFltb_true_leb a b : SFltb a b = true -> SFleb a b = true.
Proof. unfold SFltb, SFleb. now destruct (SFcompare a b) as [[]|]. Qed.

Lemma ge_refl x : is_nan x = false -> ge x x = true.
Proof. intros H. now destruct (ge_total x x H H). Qed.

Lemma larger_cases x y : larger x y = x \/ larger x y = y.
Proof. unfold larger. destruct (PrimFloat.ltb x y); auto. Qed.

Lemma larger_ge x y :
  is_nan x = false -> is_nan y = false ->
  ge (larger x y) x = true /\ ge (larger x y) y = true.
Proof.
  intros Hx Hy. unfold larger.
  destruct (PrimFloat.ltb x y) eqn:E; rewrite FloatAxioms.ltb_spec in E.
  - split; [|now apply ge_refl].
    unfold ge. rewrite FloatAxioms.leb_spec. now apply SFltb_true_leb.
  - split; [now apply ge_refl|].
    apply is_nan_Prim2SF in Hx, Hy.
    unfold ge. rewrite FloatAxioms.leb_spec, SFleb_key by assumption.
    now apply SFltb_false_key.
Qed.

Lemma fold_larger (t : list float) (x : float) :
  is_nan x = false -> (forall y, In y t -> is_nan y = false) ->
  let m := fold_left larger t x in
  (m = x \/ In m t) /\ is_nan m = false /\ ge m x = true
  /\ forall y, In y t -> ge m y = true.
Proof.
  revert x. induction t as [|y t IH]; intros x Hx Ht; cbn [fold_left].
  - repeat split; [now left | assumption | now apply ge_refl | intros y []].
  - assert (Hy : is_nan y = false) by (apply Ht; now left).
    assert (Hxy : is_nan (larger x y) = false)
      by (destruct (larger_cases x y) as [-> | ->]; assumption).
    destruct (IH (larger x y) Hxy (fun z Hz => Ht z (or_intror Hz)))
      as (Hin & Hm & Hge & Hall).
    destruct (larger_ge x y Hx Hy) as [Hlx Hly].
    repeat split.
    + destruct Hin as [Hin|Hin]; [|right; now right].
      rewrite Hin. destruct (larger_cases x y) as [-> | ->];
        [now left | right; now left].
    + exact Hm.
    + eapply ge_trans; eassumption.
    + intros z [<-|Hz]; [eapply ge_trans; eassumption | now apply Hall].
Qed.

(** The largest value of a column with at least one value and no missing
    one: it is a value of the column and no value of the column exceeds
    it. *)
Lemma max_is_largest (xs : list float) :
  xs <> [] -> (forall x, In x xs -> is_nan x = false) ->
  exists m, max xs = Some m /\ In m xs /\ forall x, In x xs -> ge m x = true.
Proof.
  destruct xs as [|x t]; [congruence|]. intros _ Hnan.
  destruct (fold_larger t x (Hnan x (or_introl eq_refl))
              (fun y Hy => Hnan y (or_intror Hy)))
    as (Hin & _ & Hge & Hall).
  exists (fold_left larger t x). split; [reflexivity|]. split.
  - destruct Hin as [->|Hin]; [now left | now right].
  - intros y [<-|Hy]; [exact Hge | now apply Hall].
Qed.

Lemma view_lifts_not_nan (store : DataFrame) (s c l : float) (x : float) :
  In x (map lift (threshold_filter store s c l)) -> is_nan x = false.
Proof.
  intros Hx. apply in_map_iff in Hx as (r & <- & Hr).
  now apply threshold_filter_not_nan in Hr.
Qed.

(** The "Strongest Link" card of a non-empty filtered view shows the lift
    of one of its rows, and no row of the view has a larger lift. *)
Theorem strongest_link_is_largest_lift
    (store : DataFrame) (min_support min_confidence min_lift : float) :
  let view := threshold_filter store min_support min_confidence min_lift in
  view <> [] ->
  exists m,
    max (map lift view) = Some m
    /\ (exists r, In r view /\ lift r = m)
    /\ (forall r, In r view -> ge m (lift r) = true)
    /\ ge m min_lift = true.
Proof.
  intros view Hv.
  assert (Hl : map lift view <> []) by (destruct view; [congruence|discriminate]).
  destruct (max_is_largest (map lift view) Hl
              (view_lifts_not_nan store min_support min_confidence min_lift))
    as (m & Hm & Hin & Hall).
  exists m. split; [exact Hm|].
  apply in_map_iff in Hin as (r & Hr & Hin).
  split; [now exists r|]. split.
  - intros r' Hr'. apply Hall. now apply in_map.
  - rewrite <- Hr. apply threshold_filter_In in Hin as [_ (_ & _ & H)]. exact H.
Qed.

Lemma strongest_link_is_largest_lift_witness :
  let view := threshold_filter scenario_store 0.03 0.3 1.0 in
  view <> []
  /\ exists m,
       max (map lift view) = Some m
       /\ (exists r, In r view /\ lift r = m)
       /\ (forall r, In r view -> ge m (lift r) = true)
       /\ ge m 1.0 = true.
Proof.
  intros view. split; [discriminate|].
  apply (strongest_link_is_largest_lift scenario_store 0.03 0.3 1.0).
  discriminate.
Defined.

(** Every weight in the graph lies between the lift slider and the
    "Strongest Link" card: each edge comes from a row of the filtered
    view. *)
Theorem edge_weights_within_bounds `{SV : SortValues}
    (Hsort : sorts_descending SV)
    (store : DataFrame) (min_support min_confidence min_lift : float)
    (u v : string) (w : float) :
  let view := threshold_filter store min_support min_confidence min_lift in
  edges (build_graph (graph_data view)) !! (u, v) = Some w ->
  ge w min_lift = true
  /\ (exists r, In r view /\ antecedents r = u /\ consequents r = v /\ lift r = w)
  /\ exists m, max (map lift view) = Some m /\ ge m w = true.
Proof.
  intros view Hw. rewrite build_graph_lookup in Hw.
  destruct (last (List.filter (same_edge (u, v)) (graph_data view)))
    as [r|] eqn:E; [|discriminate].
  injection Hw as <-.
  apply last_Some_elem_of, list_elem_of_In, List.filter_In in E as [Hin Hk].
  unfold same_edge in Hk. apply bool_decide_eq_true in Hk.
  injection Hk as Hu Hv.
  assert (Hr : In r view).
  { unfold graph_data, df_head in Hin. apply In_take in Hin.
    apply list_elem_of_In in Hin.
    assert (Hp : sort_values lift view ≡ₚ view) by apply (Hsort lift view).
    rewrite Hp in Hin. now apply list_elem_of_In. }
  split; [|split].
  - apply threshold_filter_In in Hr as [_ (_ & _ & H)]. exact H.
  - exists r. auto.
  - assert (Hl : map lift view <> [])
      by (destruct view; [destruct Hr|discriminate]).
    destruct (max_is_largest (map lift view) Hl
                (view_lifts_not_nan store min_support min_confidence min_lift))
      as (m & Hm & _ & Hall).
    exists m. split; [exact Hm|]. apply Hall. now apply in_map.
Qed.

Lemma edge_weights_within_bounds_witness :
  sorts_descending stable_kind
  /\ edges (build_graph
       (@graph_data stable_kind (threshold_filter duplicate_store 0.03 0.3 1.0)))
     !! ("A", "B") = Some 1.5%float
  /\ ge 1.5 1.0 = true
  /\ (exists r, In r (threshold_filter duplicate_store 0.03 0.3 1.0)
                /\ antecedents r = "A" /\ consequents r = "B"
                /\ lift r = 1.5%float)
  /\ exists m, max (map lift (threshold_filter duplicate_store 0.03 0.3 1.0))
               = Some m /\ ge m 1.5 = true.
Proof.
  split; [exact stable_kind_sorts|].
  assert (Hw : edges (build_graph
             (@graph_data stable_kind
                (threshold_filter duplicate_store 0.03 0.3 1.0)))
           !! ("A", "B") = Some 1.5%float) by (vm_compute; reflexivity).
  split; [exact Hw|].
  exact (edge_weights_within_bounds (SV := stable_kind) stable_kind_sorts
           duplicate_store 0.03 0.3 1.0 "A" "B" 1.5%float Hw).
Defined.

(** ** How a run ends *)

(** How a run ends, by what loading gave.  If loading raised, the run ends
    on that exception; if it gave [None], the run stops on the error about
    the missing file; if it gave an object without the columns the filter
    reads, the run ends on the exception of lines 53-57; if it gave a
    five-column table, the run stops when the filtered view is empty and
    else runs to its last line, so that nothing raised in the graph section
    leaves the script. *)
Theorem dashboard_endings `{SV : SortValues} (s : Session) :
  (forall e, load_rules (st_cache s) (rules_pkl s) = Raise e ->
             ending (dashboard s) = inl (Uncaught e))
  /\ (load_rules (st_cache s) (rules_pkl s) = Return PyNone ->
      ending (dashboard s) = inl Stopped)
  /\ (forall e, load_rules (st_cache s) (rules_pkl s) = Return (Other e) ->
                ending (dashboard s) = inl (Uncaught e))
  /\ (forall store,
        load_rules (st_cache s) (rules_pkl s) = Return (Table store) ->
        (threshold_filter store (min_sup_slider s) (min_conf_slider s)
           (min_lift_slider s) = [] ->
         ending (dashboard s) = inl Stopped)
        /\ (threshold_filter store (min_sup_slider s) (min_conf_slider s)
              (min_lift_slider s) <> [] ->
            ending (dashboard s) = inr tt)).
Proof.
  split; [|split; [|split]].
  - intros e E. now rewrite (app_run_raised s e E).
  - intros E. now rewrite (app_run_missing s E).
  - intros e E. now rewrite (app_run_other s e E).
  - intros store E. split; intros Hv.
    + now rewrite (app_run_no_rules s store E Hv).
    + now rewrite (app_run_rules s store E Hv).
Qed.

(** ** The figure, or the first error *)

(** The graph section shows the figure exactly when all five plotting calls
    return; otherwise it shows, in place of the figure, the text of the
    exception of the first call that raised, and the calls after that one
    are not consulted. *)
Theorem graph_section_outcomes `{SV : SortValues}
    (s : Session) (view : DataFrame) :
  let G := build_graph (graph_data view) in
  let shows (ev : event) : Script unit :=
    ([st_subheader "Association Network";
      st_caption "Visualizing the top 20 strongest rules (by Lift)"; ev],
     inr tt) in
  let failed (e : exn) : event :=
    st_error ("Error generating graph: " +:+ exn_msg e) in
  (network_graph s view = shows (st_pyplot G) <->
     plt_subplots s = Return tt
     /\ nx_spring_layout s G = Return tt
     /\ nx_draw s G = Return tt
     /\ nx_draw_networkx_edge_labels s G (edges G) = Return tt
     /\ st_pyplot_figure s G = Return tt)
  /\ (forall e, plt_subplots s = Raise e ->
        network_graph s view = shows (failed e))
  /\ (forall e, plt_subplots s = Return tt ->
        nx_spring_layout s G = Raise e ->
        network_graph s view = shows (failed e))
  /\ (forall e, plt_subplots s = Return tt ->
        nx_spring_layout s G = Return tt ->
        nx_draw s G = Raise e ->
        network_graph s view = shows (failed e))
  /\ (forall e, plt_subplots s = Return tt ->
        nx_spring_layout s G = Return tt ->
        nx_draw s G = Return tt ->
        nx_draw_networkx_edge_labels s G (edges G) = Raise e ->
        network_graph s view = shows (failed e))
  /\ (forall e, plt_subplots s = Return tt ->
        nx_spring_layout s G = Return tt ->
        nx_draw s G = Return tt ->
        nx_draw_networkx_edge_labels s G (edges G) = Return tt ->
        st_pyplot_figure s G = Raise e ->
        network_graph s view = shows (failed e)).
Proof.
  intros G shows failed.
  unfold network_graph, graph_body. cbv zeta. fold G.
  split; [|repeat split].
  - destruct (plt_subplots s) as [[]|e1];
      [|split; [discriminate | intros (H & _); discriminate H]].
    destruct (nx_spring_layout s G) as [[]|e2];
      [|split; [discriminate | intros (_ & H & _); discriminate H]].
    destruct (nx_draw s G) as [[]|e3];
      [|split; [discriminate | intros (_ & _ & H & _); discriminate H]].
    destruct (nx_draw_networkx_edge_labels s G (edges G)) as [[]|e4];
      [|split; [discriminate | intros (_ & _ & _ & H & _); discriminate H]].
    destruct (st_pyplot_figure s G) as [[]|e5];
      [|split; [discriminate | intros (_ & _ & _ & _ & H); discriminate H]].
    split; [intros _; repeat split | reflexivity].
  - intros e ->. reflexivity.
  - intros e -> ->. reflexivity.
  - intros e -> -> ->. reflexivity.
  - intros e -> -> -> ->. reflexivity.
  - intros e -> -> -> -> ->. reflexivity.
Qed.

(** ** The page of a full run *)

(** When a store was loaded and the filtered view has a row, the page is,
    in this order: the opening calls with the three sliders, the four metric
    cards, the recommender, the graph section and the raw table.  The first
    card counts the rows of the view and the table, the last call of the
    run, shows the whole view, whatever the select box and the plotting
    calls did. *)
Theorem full_run_layout `{SV : SortValues} (s : Session) (store : DataFrame) :
  load_rules (st_cache s) (rules_pkl s) = Return (Table store) ->
  let view := threshold_filter store (min_sup_slider s) (min_conf_slider s)
                (min_lift_slider s) in
  view <> [] ->
  page (dashboard s)
  = opening_calls true
    ++ page (metric_cards view)
    ++ st_divider :: page (product_recommender s view)
    ++ [st_divider; st_tabs ["Network Graph"; "Detailed Data"]]
    ++ page (network_graph s view)
    ++ page (detailed_data view)
  /\ In (st_metric "Total Rules Found" (Count (length view))) (page (dashboard s))
  /\ last (page (dashboard s)) = Some (st_dataframe view).
Proof.
  intros E view Hv.
  rewrite (app_run_rules s store E Hv). fold view.
  rewrite product_recommender_run, network_graph_run.
  cbn [page fst]. split; [|split].
  - reflexivity.
  - apply in_app_iff. right. apply in_app_iff. left. now left.
  - rewrite !last_app, last_cons, last_app. reflexivity.
Qed.

Lemma full_run_layout_witness :
  let s := session_with (Stored (Table scenario_store)) "A" (Return tt) in
  let view := threshold_filter scenario_store (min_sup_slider s)
                (min_conf_slider s) (min_lift_slider s) in
  load_rules (st_cache s) (rules_pkl s) = Return (Table scenario_store)
  /\ view <> []
  /\ page (@dashboard stable_kind s)
     = opening_calls true
       ++ page (metric_cards view)
       ++ st_divider :: page (@product_recommender stable_kind s view)
       ++ [st_divider; st_tabs ["Network Graph"; "Detailed Data"]]
       ++ page (@network_graph stable_kind s view)
       ++ page (detailed_data view)
  /\ In (st_metric "Total Rules Found" (Count (length view)))
       (page (@dashboard stable_kind s))
  /\ last (page (@dashboard stable_kind s)) = Some (st_dataframe view).
Proof.
  intros s view. split; [reflexivity|]. split; [discriminate|].
  apply (full_run_layout (SV := stable_kind) s scenario_store);
    [reflexivity | discriminate].
Defined.

(** ** The cache of the loader *)

(** A cached result is served without reading the file.  After a run that
    found no file, [None] is cached, and a later run shows the error about
    the missing file and stops although the file is now there; after a run
    that loaded a table, a later run works on that table although the file
    is gone. *)
Theorem cached_result_is_served `{SV : SortValues} (s : Session) (df : DataFrame) :
  (st_cache s = cache_after None Missing ->
   rules_pkl s = Stored (Table df) ->
   load_rules (st_cache s) (rules_pkl s) = Return PyNone
   /\ cache_after (st_cache s) (rules_pkl s) = Some PyNone
   /\ page (dashboard s) = opening_calls false ++ [st_error missing_message]
   /\ ending (dashboard s) = inl Stopped)
  /\ (st_cache s = cache_after None (Stored (Table df)) ->
      rules_pkl s = Missing ->
      load_rules (st_cache s) (rules_pkl s) = Return (Table df)
      /\ cache_after (st_cache s) (rules_pkl s) = Some (Table df)
      /\ forall ev, In ev (page (dashboard s)) ->
                    ev <> st_error missing_message).
Proof.
  split.
  - intros Hc Hf.
    assert (E : load_rules (st_cache s) (rules_pkl s) = Return PyNone)
      by now rewrite Hc.
    split; [exact E|]. split; [now rewrite Hc|].
    now rewrite (app_run_missing s E).
  - intros Hc Hf.
    assert (E : load_rules (st_cache s) (rules_pkl s) = Return (Table df))
      by now rewrite Hc.
    split; [exact E|]. split; [now rewrite Hc|].
    intros ev Hin ->.
    destruct (threshold_filter df (min_sup_slider s) (min_conf_slider s)
                (min_lift_slider s)) as [|r view'] eqn:Ev.
    + rewrite (app_run_no_rules s df E Ev) in Hin. vm_compute in Hin.
      repeat (destruct Hin as [Hin|Hin]; [discriminate Hin|]). exact Hin.
    + assert (Hv : threshold_filter df (min_sup_slider s) (min_conf_slider s)
                     (min_lift_slider s) <> []) by (rewrite Ev; discriminate).
      rewrite (app_run_rules s df E Hv) in Hin. cbn [page fst] in Hin.
      rewrite !in_app_iff in Hin.
      destruct Hin as [Hin|[Hin|Hin]].
      * vm_compute in Hin.
        repeat (destruct Hin as [Hin|Hin]; [discriminate Hin|]). exact Hin.
      * unfold metric_calls in Hin.
        repeat (destruct Hin as [Hin|Hin]; [discriminate Hin|]). exact Hin.
      * destruct Hin as [Hin|Hin]; [discriminate Hin|].
        apply in_app_iff in Hin as [Hin|Hin].
        -- unfold recommender_calls in Hin. cbv zeta in Hin.
           apply in_app_iff in Hin as [[H|[H|[]]]|Hin]; try discriminate H.
           destruct (String.eqb _ no_item); [destruct Hin|].
           destruct (empty _).
           ++ destruct Hin as [H|[]]; discriminate H.
           ++ destruct Hin as [H|Hin]; [discriminate H|].
              apply in_map_iff in Hin as (row & H & _). discriminate H.
        -- unfold graph_result in Hin.
           destruct (ending (graph_body s _)) as [[|e']|[]].
           ++ repeat (destruct Hin as [Hin|Hin]; [discriminate Hin|]).
              exact Hin.
           ++ do 4 (destruct Hin as [Hin|Hin]; [discriminate Hin|]).
              destruct Hin as [Hin|Hin].
              ** injection Hin as Hin. simpl in Hin. discriminate Hin.
              ** repeat (destruct Hin as [Hin|Hin]; [discriminate Hin|]).
                 exact Hin.
           ++ repeat (destruct Hin as [Hin|Hin]; [discriminate Hin|]).
              exact Hin.
Qed.

Lemma cached_result_is_served_witness :
  let s := {| rules_pkl := Stored (Table scenario_store);
              st_cache := Some PyNone;
              min_sup_slider := 0.03; min_conf_slider := 0.3;
              min_lift_slider := 1.0;
              selectbox_choice := fun _ => "A";
              plt_subplots := Return tt;
              nx_spring_layout := fun _ => Return tt;
              nx_draw := fun _ => Return tt;
              nx_draw_networkx_edge_labels := fun _ _ => Return tt;
              st_pyplot_figure := fun _ => Return tt |} in
  st_cache s = cache_after None Missing
  /\ rules_pkl s = Stored (Table scenario_store)
  /\ load_rules (st_cache s) (rules_pkl s) = Return PyNone
  /\ cache_after (st_cache s) (rules_pkl s) = Some PyNone
  /\ page (@dashboard stable_kind s)
     = opening_calls false ++ [st_error missing_message]
  /\ ending (@dashboard stable_kind s) = inl Stopped.
Proof.
  intros s. split; [reflexivity|]. split; [reflexivity|].
  destruct (cached_result_is_served (SV := stable_kind) s scenario_store)
    as [H _].
  apply H; reflexivity.
Defined.
